(** * NEXUS unlock validator ([init_unlock.py]): model and verified properties

    A shallow embedding of the class [NEXUSUnlockValidator].  The validator
    issues HTTP GET requests, inspects the decoded JSON bodies with Python's
    dynamic operations, appends one record per check to [self.test_results]
    and finally summarises the list in a report.

    Modelling conventions.
    - Python values reachable from [response.json()] are the type [pyval].
    - A Python exception (an instance of [Exception]) is a class name with
      the text [str(e)].  [KeyboardInterrupt] and [SystemExit] are not
      instances of [Exception] and are outside the model.
    - Methods of the validator are computations in [M]: they read and
      update the validator object and either return a value or raise.
      What was appended to [test_results] before a [raise] stays appended.
    - The network and the wall clock are the environment: [server] maps a
      URL to the outcome of [requests.get], [clock] gives the successive
      readings of [time.time()].
    - [print] is modelled by whether it raises, not by what it writes.
      The standard output encodes with UTF-8 and strict error handling:
      text the program supplies itself (literals, test names, exception
      texts) is written, and so is the [str()] of any value but a [str]
      holding an unpaired surrogate, on which [print] raises
      [UnicodeEncodeError].
    - Python floats of the report ([success_rate], [duration], timestamps)
      are modelled by the exact rationals they approximate.
    - A [str] is the [string] of its UTF-8 bytes, an unpaired surrogate
      (which JSON can carry, as in ["\ud800"]) being the three bytes ED
      A0..BF 80..BF; a [dict] is the list of its items in insertion
      order. *)

From Stdlib Require Import ZArith NArith QArith List Bool Ascii String.
From Stdlib Require Import DecimalString Lia Lqa.
Import ListNotations.

Set Warnings "-register-all".

Local Open Scope string_scope.
Local Open Scope Z_scope.

(* ===================================================================== *)
(** ** Python values *)

(** The value of a Python [float]. *)
Inductive pyfloat : Type :=
| FNaN
| FInf (negative : bool)
| FFinite (q : Q).

(** What [json.loads] can produce; [PNone] is also the [None] stored in
    the ["data"] field of a failed endpoint check. *)
Inductive pyval : Type :=
| PNone
| PBool (b : bool)
| PInt (z : Z)
| PFloat (f : pyfloat)
| PStr (s : string)
| PList (l : list pyval)
| PDict (kvs : list (string * pyval)).

(** [Exception] instances: the class and [str(e)]. *)
Record exn : Type := Exn { exn_class : string; exn_text : string }.

(** A byte that continues a multi-byte character. *)
Definition is_continuation (c : ascii) : bool :=
  ((128 <=? N_of_ascii c) && (N_of_ascii c <? 192))%N.

(** [len(s)] for a [str]: the number of its characters. *)
Fixpoint str_len (s : string) : nat :=
  match s with
  | EmptyString => 0%nat
  | String c rest =>
      if is_continuation c then str_len rest else S (str_len rest)
  end.

(** The first two bytes of an unpaired surrogate. *)
Definition surrogate_lead (a b : ascii) : bool :=
  ((N_of_ascii a =? 237) && (160 <=? N_of_ascii b))%N.

(** The number of surrogates at the head of [s]. *)
Fixpoint surrogate_run (s : string) : nat :=
  match s with
  | String a (String b (String _ rest)) =>
      if surrogate_lead a b then S (surrogate_run rest) else 0%nat
  | _ => 0%nat
  end.

(** The first surrogate of [s]: its position, counted in characters from
    [pos], its code point, and the length of the run of surrogates it
    starts. *)
Fixpoint find_surrogate (s : string) (pos : nat) : option (nat * N * nat) :=
  match s with
  | EmptyString => None
  | String a rest =>
      match rest with
      | String b (String c _) =>
          if surrogate_lead a b
          then Some (pos,
                     (53248 + (N_of_ascii b mod 64) * 64
                      + N_of_ascii c mod 64)%N,
                     surrogate_run s)
          else find_surrogate rest (if is_continuation a then pos else S pos)
      | _ => None
      end
  end.

Definition has_surrogate (s : string) : bool :=
  match find_surrogate s 0 with Some _ => true | None => false end.

Definition hex_digit (n : N) : ascii :=
  match String.get (N.to_nat n) "0123456789abcdef" with
  | Some c => c
  | None => "0"%char
  end.

(** The four hexadecimal digits of a code point below 65536. *)
Definition hex4 (n : N) : string :=
  String (hex_digit (n / 4096))
    (String (hex_digit (n / 256 mod 16))
       (String (hex_digit (n / 16 mod 16))
          (String (hex_digit (n mod 16)) ""))).

Definition decimal (n : nat) : string :=
  NilZero.string_of_uint (Nat.to_uint n).

Definition type_name (v : pyval) : string :=
  match v with
  | PNone => "NoneType"
  | PBool _ => "bool"
  | PInt _ => "int"
  | PFloat _ => "float"
  | PStr _ => "str"
  | PList _ => "list"
  | PDict _ => "dict"
  end.

(** [bool(v)] *)
Definition truthy (v : pyval) : bool :=
  match v with
  | PNone => false
  | PBool b => b
  | PInt z => negb (z =? 0)
  | PFloat FNaN => true
  | PFloat (FInf _) => true
  | PFloat (FFinite q) => negb (Qeq_bool q 0)
  | PStr s => negb (String.eqb s "")
  | PList l => match l with [] => false | _ => true end
  | PDict kvs => match kvs with [] => false | _ => true end
  end.

(** [a and b]: the first operand when it is falsy, else the second. *)
Definition py_and (a b : pyval) : pyval := if truthy a then b else a.

(** Lookup in a [dict]; the list holds the items in insertion order and
    the first binding of a key is the one in force. *)
Fixpoint dict_lookup (kvs : list (string * pyval)) (key : string) : option pyval :=
  match kvs with
  | [] => None
  | (k, v) :: rest => if String.eqb k key then Some v else dict_lookup rest key
  end.

(** [d[key] = v] *)
Fixpoint dict_set {A : Type} (kvs : list (string * A)) (key : string) (v : A)
  : list (string * A) :=
  match kvs with
  | [] => [(key, v)]
  | (k, w) :: rest =>
      if String.eqb k key then (k, v) :: rest else (k, w) :: dict_set rest key v
  end.

Fixpoint dict_keys (kvs : list (string * pyval)) (seen : list string) : list string :=
  match kvs with
  | [] => []
  | (k, _) :: rest =>
      if existsb (String.eqb k) seen then dict_keys rest seen
      else k :: dict_keys rest (k :: seen)
  end.

(** [needle in hay] for two [str] *)
Fixpoint str_contains (needle hay : string) : bool :=
  if String.prefix needle hay then true
  else match hay with
       | EmptyString => false
       | String _ rest => str_contains needle rest
       end.

(** [v == s] for a [str] [s] *)
Definition py_eq_str (v : pyval) (s : string) : bool :=
  match v with
  | PStr t => String.eqb t s
  | _ => false
  end.

(** Comparison [v > n] against an [int] literal [n]. *)
Definition float_gt_int (f : pyfloat) (n : Z) : bool :=
  match f with
  | FNaN => false
  | FInf negative => negb negative
  | FFinite q => negb (Qle_bool q (inject_Z n))
  end.

Definition py_gt_int (v : pyval) (n : Z) : exn + bool :=
  match v with
  | PBool b => inr ((if b then 1 else 0) >? n)
  | PInt z => inr (z >? n)
  | PFloat f => inr (float_gt_int f n)
  | _ => inl (Exn "TypeError"
                ("'>' not supported between instances of '" ++ type_name v
                 ++ "' and 'int'"))
  end.

(** [s in v] for a [str] [s]: substring of a [str], element of a [list],
    key of a [dict]; anything else is not a container. *)
Definition py_contains_str (s : string) (v : pyval) : exn + bool :=
  match v with
  | PStr t => inr (str_contains s t)
  | PList l => inr (existsb (fun x => py_eq_str x s) l)
  | PDict kvs => inr (existsb (fun kv => String.eqb (fst kv) s) kvs)
  | _ => inl (Exn "TypeError"
                ("argument of type '" ++ type_name v ++ "' is not iterable"))
  end.

(** [len(v)] *)
Definition py_len (v : pyval) : exn + Z :=
  match v with
  | PStr t => inr (Z.of_nat (str_len t))
  | PList l => inr (Z.of_nat (List.length l))
  | PDict kvs => inr (Z.of_nat (List.length (dict_keys kvs [])))
  | _ => inl (Exn "TypeError"
                ("object of type '" ++ type_name v ++ "' has no len()"))
  end.

(** [v.get(key, default)]: only a [dict] has the method. *)
Definition py_get (v : pyval) (key : string) (default : pyval) : exn + pyval :=
  match v with
  | PDict kvs =>
      inr (match dict_lookup kvs key with Some x => x | None => default end)
  | _ => inl (Exn "AttributeError"
                ("'" ++ type_name v ++ "' object has no attribute 'get'"))
  end.

(** [any(fp in v for fp in fps)]: the generator is consumed from the left
    and stops at the first hit; a raising membership test propagates. *)
Fixpoint py_any_contains (fps : list string) (v : pyval) : exn + bool :=
  match fps with
  | [] => inr false
  | fp :: rest =>
      match py_contains_str fp v with
      | inl e => inl e
      | inr true => inr true
      | inr false => py_any_contains rest v
      end
  end.

(* ===================================================================== *)
(** ** Text handed to [print] *)

(** The argument of a [print] call, as the f-string that builds it: text
    of the program's own ([Lit]), an interpolated value [{v}] with its
    [str(v)] ([Shown]), and concatenation. *)
Inductive text : Type :=
| Lit (s : string)
| Shown (v : pyval) (s : string)
| Cat (a b : text).

(** The [str] the f-string evaluates to. *)
Fixpoint render (t : text) : string :=
  match t with
  | Lit s => s
  | Shown _ s => s
  | Cat a b => render a ++ render b
  end.

(** [str(v)] can be written to the standard output: [str()] of a [str] is
    the [str] itself, and of any other value it is text in which [repr]
    has escaped every surrogate. *)
Definition printable_value (v : pyval) : bool :=
  match v with
  | PStr s => negb (has_surrogate s)
  | _ => true
  end.

Fixpoint printable (t : text) : bool :=
  match t with
  | Lit _ => true
  | Shown v _ => printable_value v
  | Cat a b => printable a && printable b
  end.

(** The first surrogate of the text, or else the position after it. *)
Fixpoint locate (t : text) (pos : nat) : (nat * N * nat) + nat :=
  match t with
  | Lit s => inr (pos + str_len s)%nat
  | Shown (PStr s') s =>
      match find_surrogate s' pos with
      | Some found => inl found
      | None => inr (pos + str_len s)%nat
      end
  | Shown _ s => inr (pos + str_len s)%nat
  | Cat a b =>
      match locate a pos with
      | inl found => inl found
      | inr pos' => locate b pos'
      end
  end.

(** What [print] raises on a text that cannot be encoded. *)
Definition encode_error (t : text) : exn :=
  Exn "UnicodeEncodeError"
    match locate t 0 with
    | inl (pos, code_point, run) =>
        "'utf-8' codec can't encode "
        ++ (if (run <=? 1)%nat
            then "character '\u" ++ hex4 code_point ++ "' in position "
                 ++ decimal pos
            else "characters in position " ++ decimal pos ++ "-"
                 ++ decimal (pos + run - 1))
        ++ ": surrogates not allowed"
    | inr _ => ""
    end.

(** A [log_test] call with these details returns: the detail line is
    printed only when the details are not empty. *)
Definition prints (details : text) : bool :=
  printable details || String.eqb (render details) "".

(** What a [log_test] call with these details raises otherwise. *)
Definition detail_error (details : text) : exn :=
  encode_error (Cat (Lit "    ") details).

(* ===================================================================== *)
(** ** Data model *)

(** One entry of [self.test_results] (the dict built by [log_test]).
    [passed] holds whatever the caller handed in, which is not always a
    [bool]. *)
Record TestResult : Type := mkTestResult {
  test : string;
  status : string;
  passed : pyval;
  details : string;
  timestamp : Q
}.

(** The dict returned by [test_api_endpoint]; a key that the dict does not
    have is [None] here. *)
Record EndpointCheck : Type := mkEndpointCheck {
  success : bool;
  status_code : option Z;
  data : pyval;
  error : option string
}.

(** What [requests.get] hands back: the status code and what
    [response.json()] does with the body (it raises on a body that is not
    JSON). *)
Record response : Type := mkResponse {
  resp_status : Z;
  resp_json : exn + pyval
}.

(** The validator object, and next to it the number of clock readings
    taken so far (part of the environment, not a Python attribute). *)
Record state : Type := mkState {
  base_url : string;
  test_results : list TestResult;
  fingerprint_lock : string;
  clock_reads : nat
}.

(** [NEXUSUnlockValidator(base_url)] *)
Definition init (url : string) : state :=
  {| base_url := url;
     test_results := [];
     fingerprint_lock := "WATSON_COMMAND_READY";
     clock_reads := 0 |}.

(** The dict returned by [run_comprehensive_validation]. *)
Record ValidationReport : Type := mkReport {
  overall_success : bool;
  success_rate : Q;
  passed_tests : Z;
  total_tests : Z;
  duration : Q;
  results : list (string * pyval);
  test_details : list TestResult;
  fingerprint_validated : string
}.

(* ===================================================================== *)
(** ** Computations on the validator *)

Definition M (A : Type) : Type := state -> state * (exn + A).

Definition ret {A : Type} (a : A) : M A := fun st => (st, inr a).

Definition raise {A : Type} (e : exn) : M A := fun st => (st, inl e).

Definition lift {A : Type} (r : exn + A) : M A := fun st => (st, r).

Definition bind {A B : Type} (m : M A) (k : A -> M B) : M B :=
  fun st =>
    let (st', r) := m st in
    match r with
    | inr a => k a st'
    | inl e => (st', inl e)
    end.

(** [try: body except Exception as e: handler] *)
Definition try_except {A : Type} (body : M A) (handler : exn -> M A) : M A :=
  fun st =>
    let (st', r) := body st in
    match r with
    | inr a => (st', inr a)
    | inl e => handler e st'
    end.

Definition gets {A : Type} (f : state -> A) : M A := fun st => (st, inr (f st)).

Declare Scope py_scope.
Delimit Scope py_scope with py.
Notation "x <- m ;; k" := (bind m (fun x => k))
  (at level 100, m at next level, right associativity) : py_scope.
Notation "m ;;; k" := (bind m (fun _ => k))
  (at level 100, right associativity) : py_scope.
Local Open Scope py_scope.

(* ===================================================================== *)
(** ** The methods of [NEXUSUnlockValidator] *)

Section Validator.

(** The network: the outcome of [requests.get(url, timeout=5)], either an
    exception (timeout, refused connection, ...) or a response. *)
Variable server : string -> exn + response.

(** The successive readings of [time.time()]. *)
Variable clock : nat -> Q.

(** [str(v)], as used by the f-strings that build [details]. *)
Variable py_str : pyval -> string.

Definition time_time : M Q :=
  fun st =>
    ({| base_url := base_url st;
        test_results := test_results st;
        fingerprint_lock := fingerprint_lock st;
        clock_reads := S (clock_reads st) |},
     inr (clock (clock_reads st))).

Definition append_result (r : TestResult) : M unit :=
  fun st =>
    ({| base_url := base_url st;
        test_results := test_results st ++ [r];
        fingerprint_lock := fingerprint_lock st;
        clock_reads := clock_reads st |},
     inr tt).

(** [{v}] inside an f-string *)
Definition shown (v : pyval) : text := Shown v (py_str v).

(** [print(t)] *)
Definition print (t : text) : M unit :=
  if printable t then ret tt else raise (encode_error t).

Definition log_test (test_name : string) (passed : pyval) (details : text)
  : M unit :=
  let status := if truthy passed then "✓ PASS" else "✗ FAIL" in
  now <- time_time ;;
  append_result {| test := test_name;
                   status := status;
                   passed := passed;
                   details := render details;
                   timestamp := now |} ;;;
  print (Cat (Lit status) (Cat (Lit ": ") (Lit test_name))) ;;;
  if negb (String.eqb (render details) "")
  then print (Cat (Lit "    ") details)
  else ret tt.

Definition requests_get (url : string) : M response := lift (server url).

Definition response_json (r : response) : M pyval := lift (resp_json r).

Definition test_api_endpoint (endpoint : string) (expected_status : Z)
  : M EndpointCheck :=
  try_except
    (url <- gets (fun st => base_url st ++ endpoint) ;;
     response <- requests_get url ;;
     body <- (if resp_status response =? 200
              then response_json response
              else ret PNone) ;;
     ret {| success := resp_status response =? expected_status;
            status_code := Some (resp_status response);
            data := body;
            error := None |})
    (fun e =>
       ret {| success := false;
              status_code := None;
              data := PNone;
              error := Some (exn_text e) |}).

Definition modules : list string :=
  [ "/api/dashboard/stats";
    "/api/dashboard/activity";
    "/api/dashboard/learning-progress";
    "/api/quantum/knowledge-graph";
    "/api/market/summary";
    "/api/market/alerts";
    "/api/research/metrics";
    "/api/research/targets";
    "/api/automation/metrics";
    "/api/kaizen/metrics";
    "/api/infinity/health";
    "/api/infinity/modules";
    "/api/watson/state";
    "/api/watson/visual-state" ].

(** [result.get('status_code', 'Error')] *)
Definition status_or_error (result : EndpointCheck) : pyval :=
  match status_code result with
  | Some c => PInt c
  | None => PStr "Error"
  end.

(** The [for module in modules] loop of [validate_dashboard_modules],
    threading [passed_count]. *)
Fixpoint sweep (mods : list string) (passed_count : Z) : M Z :=
  match mods with
  | [] => ret passed_count
  | module :: rest =>
      result <- test_api_endpoint module 200 ;;
      if success result
      then (log_test ("Module Access: " ++ module) (PBool true) (Lit "") ;;;
            sweep rest (passed_count + 1))
      else (log_test ("Module Access: " ++ module) (PBool false)
              (Cat (Lit "Status: ") (shown (status_or_error result))) ;;;
            sweep rest passed_count)
  end.

(** [success_rate >= 0.8] with [success_rate = passed_count / n].  The
    quotient of two small integers is never within rounding distance of
    4/5 unless it equals it, so the comparison of the doubles is the
    comparison of the rationals. *)
Definition rate_ok (passed_count n : Z) : bool :=
  Qle_bool (8 # 10) (inject_Z passed_count / inject_Z n).

Definition validate_dashboard_modules : M pyval :=
  passed_count <- sweep modules 0 ;;
  let n := Z.of_nat (List.length modules) in
  log_test "Dashboard Module Access" (PBool (rate_ok passed_count n))
    (Cat (shown (PInt passed_count))
       (Cat (Lit "/") (Cat (shown (PInt n)) (Lit " modules accessible")))) ;;;
  ret (PBool (rate_ok passed_count n)).

Definition validate_watson_command_engine : M pyval :=
  state_result <- test_api_endpoint "/api/watson/state" 200 ;;
  if negb (success state_result)
  then (log_test "Watson State Access" (PBool false)
          (Lit "Cannot access Watson state") ;;;
        ret (PBool false))
  else
    let state_data := data state_result in
    memory_aware <- lift (py_get state_data "isMemoryAware" (PBool false)) ;;
    log_test "Watson Memory Awareness" memory_aware
      (Cat (Lit "Memory aware: ") (shown memory_aware)) ;;;
    fingerprint <- lift (py_get state_data "fingerprintLock" (PStr "")) ;;
    lock <- gets fingerprint_lock ;;
    let expected_fingerprints :=
      [lock; "WATSON_FINAL_INFINITY_PATCH_2025_06_05"] in
    fingerprint_match <-
      lift (py_any_contains expected_fingerprints fingerprint) ;;
    log_test "Watson Fingerprint Lock" (PBool fingerprint_match)
      (Cat (Lit "System fingerprint: ") (shown fingerprint)) ;;;
    visual_result <- test_api_endpoint "/api/watson/visual-state" 200 ;;
    let visual_accessible := success visual_result in
    log_test "Watson Visual State" (PBool visual_accessible) (Lit "") ;;;
    history_result <- test_api_endpoint "/api/watson/history" 200 ;;
    let history_accessible := success history_result in
    log_test "Watson Command History" (PBool history_accessible) (Lit "") ;;;
    ret (py_and memory_aware
           (py_and (PBool fingerprint_match)
              (py_and (PBool visual_accessible)
                 (PBool history_accessible)))).

Definition validate_kaizen_agent : M pyval :=
  metrics_result <- test_api_endpoint "/api/kaizen/metrics" 200 ;;
  if negb (success metrics_result)
  then (log_test "Kaizen Metrics Access" (PBool false)
          (Lit "Cannot access Kaizen metrics") ;;;
        ret (PBool false))
  else
    let metrics_data := data metrics_result in
    is_active <- lift (py_get metrics_data "isActive" (PBool false)) ;;
    log_test "Kaizen Agent Active" is_active (Lit "") ;;;
    cycles <- lift (py_get metrics_data "optimizationCycles" (PInt 0)) ;;
    cycles_running <- lift (py_gt_int cycles 0) ;;
    log_test "Kaizen Optimization Cycles" (PBool cycles_running)
      (Cat (Lit "Cycles completed: ") (shown cycles)) ;;;
    efficiency <- lift (py_get metrics_data "currentEfficiency" (PInt 0)) ;;
    good_efficiency <- lift (py_gt_int efficiency 90) ;;
    log_test "Kaizen System Efficiency" (PBool good_efficiency)
      (Cat (Lit "Efficiency: ") (Cat (shown efficiency) (Lit "%"))) ;;;
    ret (py_and is_active
           (py_and (PBool cycles_running) (PBool good_efficiency))).

Definition validate_infinity_sovereign : M pyval :=
  health_result <- test_api_endpoint "/api/infinity/health" 200 ;;
  modules_result <- test_api_endpoint "/api/infinity/modules" 200 ;;
  let health_accessible := success health_result in
  let modules_accessible := success modules_result in
  log_test "Infinity Health Access" (PBool health_accessible) (Lit "") ;;;
  log_test "Infinity Modules Access" (PBool modules_accessible) (Lit "") ;;;
  if health_accessible && truthy (data health_result)
  then
    let health_data := data health_result in
    overall_health <- lift (py_get health_data "overallHealth" (PInt 0)) ;;
    good_health <- lift (py_gt_int overall_health 90) ;;
    log_test "System Health Status" (PBool good_health)
      (Cat (Lit "Health: ") (Cat (shown overall_health) (Lit "%"))) ;;;
    security_status <-
      lift (py_get health_data "securityStatus" (PStr "unknown")) ;;
    let good_security :=
      existsb (py_eq_str security_status) ["excellent"; "good"] in
    log_test "Security Status" (PBool good_security)
      (Cat (Lit "Security: ") (shown security_status)) ;;;
    ret (py_and (PBool good_health) (PBool good_security))
  else
    ret (py_and (PBool health_accessible) (PBool modules_accessible)).

Definition validate_market_intelligence : M pyval :=
  summary_result <- test_api_endpoint "/api/market/summary" 200 ;;
  alerts_result <- test_api_endpoint "/api/market/alerts" 200 ;;
  let summary_accessible := success summary_result in
  let alerts_accessible := success alerts_result in
  log_test "Market Summary Access" (PBool summary_accessible) (Lit "") ;;;
  log_test "Market Alerts Access" (PBool alerts_accessible) (Lit "") ;;;
  if summary_accessible && truthy (data summary_result)
  then
    let summary_data := data summary_result in
    data_points <- lift (py_get summary_data "totalDataPoints" (PInt 0)) ;;
    sources <- lift (py_get summary_data "activeSources" (PList [])) ;;
    active_sources <- lift (py_len sources) ;;
    has_data <- lift (py_gt_int data_points 0) ;;
    let has_sources := active_sources >? 0 in
    log_test "Market Data Collection" (PBool has_data)
      (Cat (Lit "Data points: ") (shown data_points)) ;;;
    log_test "Market Data Sources" (PBool has_sources)
      (Cat (Lit "Active sources: ") (shown (PInt active_sources))) ;;;
    ret (py_and (PBool has_data) (PBool has_sources))
  else
    ret (py_and (PBool summary_accessible) (PBool alerts_accessible)).

Definition validate_ui_readiness : M pyval :=
  dashboard_result <- test_api_endpoint "/" 200 ;;
  let dashboard_accessible := success dashboard_result in
  log_test "Dashboard UI Access" (PBool dashboard_accessible) (Lit "") ;;;
  let websocket_configured := true in
  log_test "WebSocket Configuration" (PBool websocket_configured) (Lit "") ;;;
  ret (py_and (PBool dashboard_accessible) (PBool websocket_configured)).

(** The [for test_name, test_func in tests] loop of
    [run_comprehensive_validation], threading [results] and
    [overall_success]. *)
Fixpoint run_tests (tests : list (string * M pyval))
    (results : list (string * pyval)) (overall : bool)
  : M (list (string * pyval) * bool) :=
  match tests with
  | [] => ret (results, overall)
  | t :: rest =>
      let (test_name, test_func) := t in
      r <- try_except
             (result <- test_func ;;
              ret (dict_set results test_name result,
                   if negb (truthy result) then false else overall))
             (fun e =>
                log_test (test_name ++ " Exception") (PBool false)
                  (Lit (exn_text e)) ;;;
                ret (dict_set results test_name (PBool false), false)) ;;
      run_tests rest (fst r) (snd r)
  end.

(** [sum(1 for r in test_results if r["passed"])] *)
Definition count_passed (trs : list TestResult) : Z :=
  fold_left Z.add
    (map (fun _ => 1) (filter (fun r => truthy (passed r)) trs)) 0.

(** [(passed_tests / total_tests) * 100 if total_tests > 0 else 0] *)
Definition rate (passed_tests total_tests : Z) : Q :=
  if total_tests >? 0
  then (inject_Z passed_tests / inject_Z total_tests) * inject_Z 100
  else 0%Q.

(** [run_comprehensive_validation] over a given [tests] list. *)
Definition run_validation (tests : list (string * M pyval))
  : M ValidationReport :=
  start_time <- time_time ;;
  r <- run_tests tests [] true ;;
  end_time <- time_time ;;
  trs <- gets test_results ;;
  let passed_tests := count_passed trs in
  let total_tests := Z.of_nat (List.length trs) in
  lock <- gets fingerprint_lock ;;
  ret {| overall_success := snd r;
         success_rate := rate passed_tests total_tests;
         passed_tests := passed_tests;
         total_tests := total_tests;
         duration := (end_time - start_time)%Q;
         results := fst r;
         test_details := trs;
         fingerprint_validated := lock |}.

Definition tests : list (string * M pyval) :=
  [ ("Dashboard Modules", validate_dashboard_modules);
    ("Watson Command Engine", validate_watson_command_engine);
    ("KaizenGPT Agent", validate_kaizen_agent);
    ("Infinity Sovereign", validate_infinity_sovereign);
    ("Market Intelligence", validate_market_intelligence);
    ("UI Readiness", validate_ui_readiness) ].

Definition run_comprehensive_validation : M ValidationReport :=
  run_validation tests.

End Validator.

(* ===================================================================== *)
(** ** The entry point *)

(** [main]: the exit status of the process.  [write_report] is the file
    system: what [open("unlock_validation_report.json", "w")] and
    [json.dump] do with the report.  [sys.exit] raises [SystemExit],
    which is not an [Exception] and so passes the [except Exception]
    clause; an interrupt by the user (status 2) is outside the model. *)
Definition main (server : string -> exn + response) (clock : nat -> Q)
    (py_str : pyval -> string)
    (write_report : ValidationReport -> exn + unit) : Z :=
  let validator := init "http://localhost:5000" in
  let attempt : exn + Z :=
    match snd (run_comprehensive_validation server clock py_str validator) with
    | inl e => inl e
    | inr report =>
        match write_report report with
        | inl e => inl e
        | inr _ => inr (if overall_success report then 0 else 1)
        end
    end in
  match attempt with
  | inr code => code
  | inl _ => 3
  end.

(* ===================================================================== *)
(** ** Notions used in the statements *)

(** The result of an endpoint check that ended in the [except] branch. *)
Definition failed_check (e : exn) : EndpointCheck :=
  {| success := false;
     status_code := None;
     data := PNone;
     error := Some (exn_text e) |}.

(** The result of an endpoint check as a function of what the network
    did. *)
Definition check_of (outcome : exn + response) (expected_status : Z)
  : EndpointCheck :=
  match outcome with
  | inl e => failed_check e
  | inr resp =>
      if resp_status resp =? 200
      then match resp_json resp with
           | inr v => {| success := resp_status resp =? expected_status;
                         status_code := Some (resp_status resp);
                         data := v;
                         error := None |}
           | inl e => failed_check e
           end
      else {| success := resp_status resp =? expected_status;
              status_code := Some (resp_status resp);
              data := PNone;
              error := None |}
  end.

(** A response with status 200 whose body decodes to [v]. *)
Definition json_response (v : pyval) : exn + response :=
  inr {| resp_status := 200; resp_json := inr v |}.

(** The server answers with status 200. *)
Definition responds_200 (outcome : exn + response) : bool :=
  match outcome with
  | inr resp => resp_status resp =? 200
  | inl _ => false
  end.

(** The server answers with status 200 and a body that decodes as JSON. *)
Definition responds_200_json (outcome : exn + response) : bool :=
  match outcome with
  | inr resp =>
      (resp_status resp =? 200)
      && match resp_json resp with inr _ => true | inl _ => false end
  | inl _ => false
  end.

(** The module paths for which the endpoint check succeeds. *)
Definition succeeding (server : string -> exn + response) (base : string)
    (mods : list string) : list string :=
  filter (fun p => responds_200_json (server (base ++ p))) mods.

(** The state after one [log_test] call. *)
Definition logged (clock : nat -> Q) (st : state)
    (test_name : string) (p : pyval) (d : string) : state :=
  {| base_url := base_url st;
     test_results :=
       test_results st
       ++ [ {| test := test_name;
               status := if truthy p then "✓ PASS" else "✗ FAIL";
               passed := p;
               details := d;
               timestamp := clock (clock_reads st) |} ];
     fingerprint_lock := fingerprint_lock st;
     clock_reads := S (clock_reads st) |}.

(** The entries a run [r] started in [st] has added to the log. *)
Definition new_entries {A : Type} (st : state) (r : state * A)
  : list TestResult :=
  skipn (List.length (test_results st)) (test_results (fst r)).

(** A sub-check is treated as failing by a run: no entry of that name is
    logged as passed; when the run returns, the result is false and an
    entry of that name is logged as failed; and when the run raises, the
    error is that of a threshold test or of [print]. *)
Definition treated_as_failing (st : state) (r : state * (exn + pyval))
    (name : string) : Prop :=
  (forall t, In t (new_entries st r) -> test t = name ->
             truthy (passed t) = false)
  /\ match snd r with
     | inr res =>
         truthy res = false
         /\ exists t, In t (new_entries st r) /\ test t = name
                      /\ truthy (passed t) = false
     | inl e =>
         exn_class e = "TypeError" \/ exn_class e = "UnicodeEncodeError"
     end.

(** The state after one clock reading. *)
Definition tick (st : state) : state :=
  {| base_url := base_url st;
     test_results := test_results st;
     fingerprint_lock := fingerprint_lock st;
     clock_reads := S (clock_reads st) |}.

(** The state after the [except] branch of the orchestration loop has
    logged the exception [e] raised by category [name]. *)
Definition failure_logged (clock : nat -> Q) (st : state) (name : string)
    (e : exn) : state :=
  logged clock st (name ++ " Exception") (PBool false) (exn_text e).

(** [categories_run clock st tests rs st']: starting in [st], every
    category of [tests] is called in turn, each in the state its
    predecessor left.  A category that returns [v] contributes [v] to
    [rs]; a category that raises [e] contributes [False] and one logged
    failure with the text of [e]; either way the next category is
    called.  [st'] is the state after the last one. *)
Inductive categories_run (clock : nat -> Q)
  : state -> list (string * M pyval) -> list (string * pyval) -> state -> Prop :=
| run_done : forall st, categories_run clock st [] [] st
| run_returned : forall st name f rest st1 v rs st',
    f st = (st1, inr v) ->
    categories_run clock st1 rest rs st' ->
    categories_run clock st ((name, f) :: rest) ((name, v) :: rs) st'
| run_raised : forall st name f rest st1 e rs st',
    f st = (st1, inl e) ->
    categories_run clock (failure_logged clock st1 name e) rest rs st' ->
    categories_run clock st ((name, f) :: rest) ((name, PBool false) :: rs) st'.

(** The [tests] list with arbitrary category routines. *)
Definition six_categories (f1 f2 f3 f4 f5 f6 : M pyval)
  : list (string * M pyval) :=
  [ ("Dashboard Modules", f1);
    ("Watson Command Engine", f2);
    ("KaizenGPT Agent", f3);
    ("Infinity Sovereign", f4);
    ("Market Intelligence", f5);
    ("UI Readiness", f6) ].

(** A logged entry without its timestamp. *)
Definition untimed (t : TestResult) : string * string * pyval * string :=
  (test t, status t, passed t, details t).

(** Two validator states that differ at most in timestamps and in the
    number of clock readings. *)
Definition same_but_time (s1 s2 : state) : Prop :=
  base_url s1 = base_url s2
  /\ map untimed (test_results s1) = map untimed (test_results s2)
  /\ fingerprint_lock s1 = fingerprint_lock s2.

(** Two computations that, from such states, end in such states with the
    same outcome. *)
Definition same_run {A : Type} (m1 m2 : M A) : Prop :=
  forall s1 s2,
    same_but_time s1 s2 ->
    same_but_time (fst (m1 s1)) (fst (m2 s2)) /\ snd (m1 s1) = snd (m2 s2).

(** An entry whose status text agrees with its flag. *)
Definition status_agrees (t : TestResult) : Prop :=
  status t = if truthy (passed t) then "✓ PASS" else "✗ FAIL".

(** An entry stamped with one of the clock readings [lo], ..., [hi - 1]. *)
Definition stamped (clock : nat -> Q) (lo hi : nat) (t : TestResult) : Prop :=
  exists i, (lo <= i < hi)%nat /\ timestamp t = clock i.

(** [st'] is [st] with entries appended to the log and more clock readings
    taken, and nothing else changed; the appended entries are well formed
    and stamped with the readings taken in between. *)
Definition log_grows (clock : nat -> Q) (st st' : state) : Prop :=
  base_url st' = base_url st
  /\ fingerprint_lock st' = fingerprint_lock st
  /\ (clock_reads st <= clock_reads st')%nat
  /\ exists new,
       test_results st' = (test_results st ++ new)%list
       /\ Forall status_agrees new
       /\ Forall (stamped clock (clock_reads st) (clock_reads st')) new.

(** A computation that only makes the log grow, whether it returns or
    raises. *)
Definition keeps_log {A : Type} (clock : nat -> Q) (m : M A) : Prop :=
  forall st, log_grows clock st (fst (m st)).

(** A category routine whose contribution to the log has between [lo] and
    [hi] entries: what it logs itself, plus the one entry the
    orchestration adds when it raises. *)
Definition contributes (lo hi : nat) (f : M pyval) : Prop :=
  forall st,
    let n :=
      (List.length (test_results (fst (f st)))
       + match snd (f st) with inl _ => 1 | inr _ => 0 end)%nat in
    (List.length (test_results st) + lo <= n
     /\ n <= List.length (test_results st) + hi)%nat.

(** The validator with the entries [old] put in front of its log. *)
Definition prepend (old : list TestResult) (st : state) : state :=
  {| base_url := base_url st;
     test_results := old ++ test_results st;
     fingerprint_lock := fingerprint_lock st;
     clock_reads := clock_reads st |}.

(** The validator with its log emptied. *)
Definition cleared (st : state) : state :=
  {| base_url := base_url st;
     test_results := [];
     fingerprint_lock := fingerprint_lock st;
     clock_reads := clock_reads st |}.

(** A computation that does not look at what is already in the log: with
    [old] in front of the log it does the same and leaves [old] in
    front. *)
Definition framed {A : Type} (m : M A) : Prop :=
  forall old st, m (prepend old st) = (prepend old (fst (m st)), snd (m st)).

(** A server on which every category passes, for a validator with base URL
    [base] and fingerprint [lock]: at least 12 module paths succeed; the
    state, metrics, health and summary endpoints answer with JSON objects
    whose fields pass their tests, the fingerprint being a string that can
    be printed; the visual-state, history and root endpoints succeed. *)
Definition passing_server (server : string -> exn + response)
    (base lock : string) : Prop :=
  let ok p := responds_200_json (server (base ++ p)) = true in
  12 <= Z.of_nat (List.length (succeeding server base modules))
  /\ (exists kvs fp,
         server (base ++ "/api/watson/state") = json_response (PDict kvs)
         /\ dict_lookup kvs "isMemoryAware" = Some (PBool true)
         /\ dict_lookup kvs "fingerprintLock" = Some (PStr fp)
         /\ str_contains lock fp
            || str_contains "WATSON_FINAL_INFINITY_PATCH_2025_06_05" fp
            = true
         /\ has_surrogate fp = false)
  /\ ok "/api/watson/visual-state"
  /\ ok "/api/watson/history"
  /\ (exists kvs cycles efficiency,
         server (base ++ "/api/kaizen/metrics") = json_response (PDict kvs)
         /\ dict_lookup kvs "isActive" = Some (PBool true)
         /\ dict_lookup kvs "optimizationCycles" = Some (PInt cycles)
         /\ 0 < cycles
         /\ dict_lookup kvs "currentEfficiency" = Some (PInt efficiency)
         /\ 90 < efficiency)
  /\ (exists kvs health security,
         server (base ++ "/api/infinity/health") = json_response (PDict kvs)
         /\ dict_lookup kvs "overallHealth" = Some (PInt health)
         /\ 90 < health
         /\ dict_lookup kvs "securityStatus" = Some (PStr security)
         /\ (security = "excellent" \/ security = "good"))
  /\ (exists kvs points source sources,
         server (base ++ "/api/market/summary") = json_response (PDict kvs)
         /\ dict_lookup kvs "totalDataPoints" = Some (PInt points)
         /\ 0 < points
         /\ dict_lookup kvs "activeSources" = Some (PList (source :: sources)))
  /\ ok "/".

(* ===================================================================== *)
(** ** Servers used in the examples *)

(** The default [base_url] of the constructor. *)
Definition localhost : string := "http://localhost:5000".

(** The [str] that JSON writes ["\ud800"]: one unpaired surrogate. *)
Definition surrogate_d800 : string :=
  String (ascii_of_nat 237)
    (String (ascii_of_nat 160) (String (ascii_of_nat 128) "")).

(** A [str()] for the examples: a [str] is shown as it is, any other value
    as ["?"]. *)
Definition str_of (v : pyval) : string :=
  match v with
  | PStr s => s
  | _ => "?"
  end.

(** What [response.json()] raises on a body that is an HTML page. *)
Definition html_decode_error : exn :=
  Exn "JSONDecodeError" "Expecting value: line 1 column 1 (char 0)".

(** A response with status 200 whose body is an HTML page. *)
Definition html_response : exn + response :=
  inr {| resp_status := 200; resp_json := inl html_decode_error |}.

(** [requests.get] raises: nobody listens. *)
Definition no_response : exn + response :=
  inl (Exn "ConnectionError" "Connection refused").

(** A server that answers every path with status 200 and an HTML page. *)
Definition html_server (url : string) : exn + response := html_response.

(** A server that answers every path with the JSON object [{}]. *)
Definition empty_object_server (url : string) : exn + response :=
  json_response (PDict []).

(** A server that answers every path with a JSON object holding none of
    the fields the routines look at. *)
Definition version_only_server (url : string) : exn + response :=
  json_response (PDict [("version", PInt 1)]).

(** A server whose command-engine state is as expected; the answer of the
    visual-state endpoint is left open, every other path gets an empty
    JSON object. *)
Definition watson_ready_server (visual : exn + response) (url : string)
  : exn + response :=
  if String.eqb url (localhost ++ "/api/watson/state")
  then json_response
         (PDict [("isMemoryAware", PBool true);
                 ("fingerprintLock", PStr "WATSON_COMMAND_READY")])
  else if String.eqb url (localhost ++ "/api/watson/visual-state")
  then visual
  else json_response (PDict []).

(** A server that only knows the metrics endpoint. *)
Definition kaizen_server (efficiency : Z) (url : string) : exn + response :=
  if String.eqb url (localhost ++ "/api/kaizen/metrics")
  then json_response
         (PDict [("isActive", PBool true);
                 ("optimizationCycles", PInt 5);
                 ("currentEfficiency", PInt efficiency)])
  else no_response.

(** A server whose market summary has data while its alerts endpoint
    answers with status 500. *)
Definition alerts_down_server (url : string) : exn + response :=
  if String.eqb url (localhost ++ "/api/market/summary")
  then json_response
         (PDict [("totalDataPoints", PInt 5);
                 ("activeSources", PList [PStr "feed"])])
  else inr {| resp_status := 500; resp_json := inl html_decode_error |}.

(** A server at which nothing listens. *)
Definition refusing_server (url : string) : exn + response := no_response.

(** A server that answers every path with one JSON object holding every
    field the routines look at, each with a passing value. *)
Definition all_ok_server (url : string) : exn + response :=
  json_response
    (PDict [("isMemoryAware", PBool true);
            ("fingerprintLock", PStr "WATSON_COMMAND_READY");
            ("isActive", PBool true);
            ("optimizationCycles", PInt 5);
            ("currentEfficiency", PInt 95);
            ("overallHealth", PInt 95);
            ("securityStatus", PStr "good");
            ("totalDataPoints", PInt 5);
            ("activeSources", PList [PStr "feed"])]).

(** The same server, with [security] as [securityStatus]. *)
Definition security_server (security : pyval) (url : string)
  : exn + response :=
  json_response
    (PDict [("isMemoryAware", PBool true);
            ("fingerprintLock", PStr "WATSON_COMMAND_READY");
            ("isActive", PBool true);
            ("optimizationCycles", PInt 5);
            ("currentEfficiency", PInt 95);
            ("overallHealth", PInt 95);
            ("securityStatus", security);
            ("totalDataPoints", PInt 5);
            ("activeSources", PList [PStr "feed"])]).

(** A server that only knows the health endpoint. *)
Definition healthy_server (health : Z) (url : string) : exn + response :=
  if String.eqb url (localhost ++ "/api/infinity/health")
  then json_response
         (PDict [("overallHealth", PInt health);
                 ("securityStatus", PStr "excellent")])
  else no_response.

(** A server that only knows the summary endpoint. *)
Definition market_server (sources : pyval) (url : string) : exn + response :=
  if String.eqb url (localhost ++ "/api/market/summary")
  then json_response
         (PDict [("totalDataPoints", PInt 5); ("activeSources", sources)])
  else no_response.

(** A server whose metrics pass, with [flag] as [isActive]. *)
Definition kaizen_flag_server (flag : pyval) (url : string) : exn + response :=
  json_response
    (PDict [("isActive", flag);
            ("optimizationCycles", PInt 5);
            ("currentEfficiency", PInt 95)]).

(** A server whose command-engine state passes, with [flag] as
    [isMemoryAware]. *)
Definition watson_flag_server (flag : pyval) (url : string) : exn + response :=
  json_response
    (PDict [("isMemoryAware", flag);
            ("fingerprintLock", PStr "WATSON_COMMAND_READY")]).

(* ===================================================================== *)
(** ** Basic equations of the computations *)

Lemma bind_ret {A B : Type} (a : A) (k : A -> M B) (st : state) :
  bind (ret a) k st = k a st.
Proof. reflexivity. Qed.

Lemma bind_lift_inr {A B : Type} (r : exn + A) (a : A) (k : A -> M B)
    (st : state) :
  r = inr a -> bind (lift r) k st = k a st.
Proof. intros ->. reflexivity. Qed.

Lemma bind_lift_inl {A B : Type} (r : exn + A) (e : exn) (k : A -> M B)
    (st : state) :
  r = inl e -> bind (lift r) k st = (st, inl e).
Proof. intros ->. reflexivity. Qed.

Lemma bind_gets {A B : Type} (f : state -> A) (k : A -> M B) (st : state) :
  bind (gets f) k st = k (f st) st.
Proof. reflexivity. Qed.

Lemma log_test_eq clock test_name p d st :
  log_test clock test_name p d st
  = (logged clock st test_name p (render d),
     if prints d then inr tt else inl (detail_error d)).
Proof.
  unfold log_test, prints, detail_error, print, bind, time_time,
    append_result, logged.
  cbn [printable andb fst snd clock_reads base_url test_results
         fingerprint_lock].
  destruct (String.eqb (render d) ""), (printable d); reflexivity.
Qed.

Lemma bind_log_test {B : Type} clock test_name p d (k : unit -> M B) st :
  prints d = true ->
  bind (log_test clock test_name p d) k st
  = k tt (logged clock st test_name p (render d)).
Proof. intros H. unfold bind at 1. rewrite log_test_eq, H. reflexivity. Qed.

Lemma bind_log_test_fails {B : Type} clock test_name p d (k : unit -> M B) st :
  prints d = false ->
  bind (log_test clock test_name p d) k st
  = (logged clock st test_name p (render d), inl (detail_error d)).
Proof. intros H. unfold bind at 1. rewrite log_test_eq, H. reflexivity. Qed.

Lemma py_gt_int_printable v n b :
  py_gt_int v n = inr b -> printable_value v = true.
Proof. destruct v; try discriminate; reflexivity. Qed.

Lemma printable_status_or_error r :
  printable_value (status_or_error r) = true.
Proof. unfold status_or_error. destruct (status_code r); reflexivity. Qed.

(** Discharge [prints t = true] from what is known of the values shown. *)
Ltac prints_tac :=
  unfold prints; cbn [printable shown];
  repeat match goal with
    | H : printable_value ?v = true |- context [printable_value ?v] =>
        rewrite H
    | H : py_gt_int ?v _ = inr _ |- context [printable_value ?v] =>
        rewrite (py_gt_int_printable _ _ _ H)
    end;
  rewrite ?printable_status_or_error;
  cbn [printable_value andb orb];
  reflexivity.

(** A [log_test] call whose details are known to print. *)
Ltac logs := rewrite bind_log_test by prints_tac; cbn [render shown].

Lemma test_api_endpoint_eq server endpoint expected st :
  test_api_endpoint server endpoint expected st
  = (st, inr (check_of (server (base_url st ++ endpoint)) expected)).
Proof.
  unfold test_api_endpoint, try_except, bind, gets, requests_get,
    response_json, lift, check_of, ret.
  destruct (server (base_url st ++ endpoint)) as [e | resp]; [reflexivity |].
  destruct (resp_status resp =? 200); [| reflexivity].
  destruct (resp_json resp); reflexivity.
Qed.

Lemma bind_test_api_endpoint {B : Type} server endpoint expected
    (k : EndpointCheck -> M B) st :
  bind (test_api_endpoint server endpoint expected) k st
  = k (check_of (server (base_url st ++ endpoint)) expected) st.
Proof. unfold bind at 1. rewrite test_api_endpoint_eq. reflexivity. Qed.

Lemma success_check_of outcome :
  success (check_of outcome 200) = responds_200_json outcome.
Proof.
  destruct outcome as [e | resp]; [reflexivity |]. simpl.
  destruct (resp_status resp =? 200); [| reflexivity].
  destruct (resp_json resp); reflexivity.
Qed.

Lemma bind_lift_raise {A B : Type} (e : exn) (k : A -> M B) (st : state) :
  bind (lift (inl e)) k st = (st, inl e).
Proof. reflexivity. Qed.

Lemma bind_lift_value {A B : Type} (a : A) (k : A -> M B) (st : state) :
  bind (lift (inr a)) k st = k a st.
Proof. reflexivity. Qed.

(** Follow every path of a routine applied to a state. *)
Ltac explore_paths :=
  repeat first
    [ rewrite bind_test_api_endpoint
    | logs
    | rewrite bind_gets
    | rewrite bind_ret
    | rewrite bind_lift_raise
    | rewrite bind_lift_value
    | match goal with
      | |- bind (log_test _ _ _ ?t) _ _ = _ -> _ =>
          let E := fresh "E" in
          destruct (prints t) eqn:E;
          [ rewrite bind_log_test by exact E
          | rewrite bind_log_test_fails by exact E ];
          cbn [render shown]
      | |- bind (lift ?r) _ _ = _ -> _ =>
          let E := fresh "E" in destruct r eqn:E
      | |- (if ?b then _ else _) _ = _ -> _ =>
          let E := fresh "E" in destruct b eqn:E
      end ].

(** The same, down to the final state and outcome of each path: the goal
    is [routine st = (st', r) -> _]. *)
Ltac explore :=
  explore_paths; unfold ret;
  let E := fresh "E" in
  intros E; injection E as <- <-.

(* ===================================================================== *)
(** ** The endpoint check *)

(** C1, as amended.  [test_api_endpoint] never raises and leaves the
    validator as it was.  An exception of [requests.get] gives
    [success = False], the exception text under ["error"] and
    [data = None], and so does a response with status 200 whose body does
    not decode as JSON.  A response with another status, or with status
    200 and a body that decodes, gives
    [success = (status_code == expected_status)]; the body is decoded only
    for status 200 and [data] is [None] otherwise. *)
Theorem test_api_endpoint_never_raises :
  forall server endpoint expected_status st,
  exists chk,
    test_api_endpoint server endpoint expected_status st = (st, inr chk)
    /\ match server (base_url st ++ endpoint) with
       | inl e => chk = failed_check e
       | inr resp =>
           if resp_status resp =? 200
           then match resp_json resp with
                | inr v =>
                    success chk = (resp_status resp =? expected_status)
                    /\ status_code chk = Some (resp_status resp)
                    /\ data chk = v
                    /\ error chk = None
                | inl e => chk = failed_check e
                end
           else success chk = (resp_status resp =? expected_status)
                /\ status_code chk = Some (resp_status resp)
                /\ data chk = PNone
                /\ error chk = None
       end.
Proof.
  intros server endpoint expected_status st.
  eexists. split; [apply test_api_endpoint_eq |].
  unfold check_of.
  destruct (server (base_url st ++ endpoint)) as [e | resp]; [reflexivity |].
  destruct (resp_status resp =? 200).
  - destruct (resp_json resp); [reflexivity | repeat split].
  - repeat split.
Qed.

(** C1 as stated fails: a response with status 200 equal to the expected
    status, whose body is an HTML page, is reported with
    [success = False]. *)
Lemma test_api_endpoint_undecodable_200 :
  let server := fun _ : string => html_response in
  exists resp chk,
    server (localhost ++ "/") = inr resp
    /\ test_api_endpoint server "/" 200 (init localhost)
       = (init localhost, inr chk)
    /\ (resp_status resp =? 200) = true
    /\ success chk = false
    /\ error chk = Some "Expecting value: line 1 column 1 (char 0)".
Proof.
  simpl. eexists. eexists. repeat split.
Qed.

(* ===================================================================== *)
(** ** The module-access sweep *)

Lemma sweep_eq server clock py_str mods :
  forall passed_count st,
  exists st',
    sweep server clock py_str mods passed_count st
    = (st', inr (passed_count
                 + Z.of_nat (List.length (succeeding server (base_url st) mods))))
    /\ base_url st' = base_url st.
Proof.
  induction mods as [| module rest IH]; intros passed_count st.
  - exists st. split; [| reflexivity]. simpl. unfold ret. f_equal. f_equal. lia.
  - cbn [sweep]. rewrite bind_test_api_endpoint.
    rewrite success_check_of. cbn [succeeding filter].
    destruct (responds_200_json (server (base_url st ++ module))).
    + logs.
      destruct (IH (passed_count + 1) (logged clock st ("Module Access: " ++ module) (PBool true) "")) as (st' & E & Hb).
      exists st'. split; [| exact Hb]. rewrite E. cbn [base_url logged].
      fold (succeeding server (base_url st) rest).
      f_equal. f_equal. cbn [List.length]. lia.
    + logs.
      match goal with |- context [sweep _ _ _ rest passed_count ?s] =>
        destruct (IH passed_count s) as (st' & E & Hb) end.
      exists st'. split; [| exact Hb]. rewrite E. reflexivity.
Qed.

Lemma rate_ok_14 c : rate_ok c 14 = (12 <=? c).
Proof.
  unfold rate_ok, Qle_bool, Qdiv, Qmult, Qinv, inject_Z. cbn [Qnum Qden].
  apply Bool.eq_iff_eq_true. rewrite !Z.leb_le.
  change (Z.pos (1 * 14)) with 14. lia.
Qed.

(** C3, as amended.  [validate_dashboard_modules] returns [True] exactly
    when at least 12 of the 14 module paths succeed, which is when at least
    80% of them do; a path succeeds exactly when the server answers it with
    status 200 and a body that decodes as JSON. *)
Theorem validate_dashboard_modules_threshold :
  forall server clock py_str st,
    let n := Z.of_nat (List.length (succeeding server (base_url st) modules)) in
    (exists st',
        validate_dashboard_modules server clock py_str st
        = (st', inr (PBool (12 <=? n))))
    /\ ((12 <=? n) = true <-> (8 # 10 <= inject_Z n / inject_Z 14)%Q)
    /\ List.length modules = 14%nat
    /\ (forall p,
          exists chk,
            test_api_endpoint server p 200 st = (st, inr chk)
            /\ success chk = responds_200_json (server (base_url st ++ p))).
Proof.
  intros server clock py_str st n. repeat split.
  - unfold validate_dashboard_modules.
    destruct (sweep_eq server clock py_str modules 0 st) as (st1 & E & _).
    unfold bind at 1. rewrite E. logs.
    change (Z.of_nat (List.length modules)) with 14.
    rewrite rate_ok_14. rewrite Z.add_0_l. fold n.
    eexists. reflexivity.
  - rewrite <- rate_ok_14. unfold rate_ok. apply Qle_bool_iff.
  - rewrite <- rate_ok_14. unfold rate_ok. apply Qle_bool_iff.
  - intro p. eexists. split; [apply test_api_endpoint_eq |].
    apply success_check_of.
Qed.

(** C3 as stated fails: when every one of the 14 paths is answered with
    status 200 and an HTML page, the sweep returns [False]. *)
Lemma validate_dashboard_modules_all_html :
  let server := fun _ : string => html_response in
  List.length (filter (fun p => responds_200 (server (localhost ++ p))) modules)
  = 14%nat
  /\ snd (validate_dashboard_modules server (fun _ => 0%Q) (fun _ => "")
            (init localhost))
     = inr (PBool false).
Proof. split; vm_compute; reflexivity. Qed.

(* ===================================================================== *)
(** ** The command-engine and optimization-agent routines *)

(** One step of symbolic execution of a routine. *)
Ltac step :=
  first
    [ rewrite bind_test_api_endpoint
    | logs
    | rewrite bind_gets
    | rewrite bind_ret
    | erewrite bind_lift_inr by eassumption
    | erewrite bind_lift_inl by eassumption ].

Lemma check_of_json v :
  check_of (json_response v) 200
  = {| success := true; status_code := Some 200; data := v; error := None |}.
Proof. reflexivity. Qed.

Lemma validate_kaizen_agent_eq server clock py_str st body a c cr e ge :
  server (base_url st ++ "/api/kaizen/metrics") = json_response body ->
  py_get body "isActive" (PBool false) = inr a ->
  py_get body "optimizationCycles" (PInt 0) = inr c ->
  py_gt_int c 0 = inr cr ->
  py_get body "currentEfficiency" (PInt 0) = inr e ->
  py_gt_int e 90 = inr ge ->
  validate_kaizen_agent server clock py_str st
  = (logged clock
       (logged clock
          (logged clock st "Kaizen Agent Active" a "")
          "Kaizen Optimization Cycles" (PBool cr)
          ("Cycles completed: " ++ py_str c))
       "Kaizen System Efficiency" (PBool ge)
       ("Efficiency: " ++ py_str e ++ "%"),
     inr (py_and a (py_and (PBool cr) (PBool ge)))).
Proof.
  intros Hs Ha Hc Hcr He Hge.
  unfold validate_kaizen_agent.
  step. rewrite Hs, check_of_json. cbn [success data negb].
  repeat step. reflexivity.
Qed.

Lemma validate_watson_command_engine_eq server clock py_str st body mem fp fm :
  server (base_url st ++ "/api/watson/state") = json_response body ->
  py_get body "isMemoryAware" (PBool false) = inr mem ->
  py_get body "fingerprintLock" (PStr "") = inr fp ->
  py_any_contains
    [fingerprint_lock st; "WATSON_FINAL_INFINITY_PATCH_2025_06_05"] fp
  = inr fm ->
  printable_value mem = true ->
  printable_value fp = true ->
  let visual_ok :=
    responds_200_json (server (base_url st ++ "/api/watson/visual-state")) in
  let history_ok :=
    responds_200_json (server (base_url st ++ "/api/watson/history")) in
  validate_watson_command_engine server clock py_str st
  = (logged clock
       (logged clock
          (logged clock
             (logged clock st "Watson Memory Awareness" mem
                ("Memory aware: " ++ py_str mem))
             "Watson Fingerprint Lock" (PBool fm)
             ("System fingerprint: " ++ py_str fp))
          "Watson Visual State" (PBool visual_ok) "")
       "Watson Command History" (PBool history_ok) "",
     inr (py_and mem
            (py_and (PBool fm)
               (py_and (PBool visual_ok) (PBool history_ok))))).
Proof.
  intros Hs Hm Hf Hfm Hpm Hpf visual_ok history_ok.
  unfold validate_watson_command_engine.
  step. rewrite Hs, check_of_json. cbn [success data negb].
  do 4 step. cbn [fingerprint_lock logged].
  repeat step. cbn [base_url logged]. rewrite !success_check_of.
  reflexivity.
Qed.

Lemma py_any_contains_two a b fp :
  py_any_contains [a; b] (PStr fp)
  = inr (str_contains a fp || str_contains b fp).
Proof.
  simpl. destruct (str_contains a fp); [reflexivity |].
  destruct (str_contains b fp); reflexivity.
Qed.

(** C4, as amended.  Let the state endpoint succeed with a JSON object
    whose [isMemoryAware] is the boolean [m] (absent counts as [false]) and
    whose [fingerprintLock] is the string [fp] (absent counts as the empty
    string), a string that holds no unpaired surrogate, so that the line
    showing it can be printed.  If [m] is true, [fp] contains one of the
    two accepted literals, and the visual-state and history endpoints both
    answer with status 200 and a body that decodes as JSON, then
    [validate_watson_command_engine] returns [True]; if any one of the four
    conditions is false it returns [False]. *)
Theorem validate_watson_command_engine_conditions :
  forall server clock py_str st kvs m fp,
    server (base_url st ++ "/api/watson/state") = json_response (PDict kvs) ->
    py_get (PDict kvs) "isMemoryAware" (PBool false) = inr (PBool m) ->
    py_get (PDict kvs) "fingerprintLock" (PStr "") = inr (PStr fp) ->
    has_surrogate fp = false ->
    let fingerprint_ok :=
      str_contains (fingerprint_lock st) fp
      || str_contains "WATSON_FINAL_INFINITY_PATCH_2025_06_05" fp in
    let visual_ok :=
      responds_200_json (server (base_url st ++ "/api/watson/visual-state")) in
    let history_ok :=
      responds_200_json (server (base_url st ++ "/api/watson/history")) in
    let result := snd (validate_watson_command_engine server clock py_str st) in
    (m = true -> fingerprint_ok = true -> visual_ok = true ->
     history_ok = true -> result = inr (PBool true))
    /\ (m = false \/ fingerprint_ok = false \/ visual_ok = false
        \/ history_ok = false -> result = inr (PBool false)).
Proof.
  intros server clock py_str st kvs m fp Hs Hm Hf Hp fingerprint_ok visual_ok
    history_ok result.
  assert (E : result
              = inr (py_and (PBool m)
                       (py_and (PBool fingerprint_ok)
                          (py_and (PBool visual_ok) (PBool history_ok))))).
  { unfold result.
    rewrite (validate_watson_command_engine_eq server clock py_str st
               (PDict kvs) (PBool m) (PStr fp) fingerprint_ok Hs Hm Hf
               (py_any_contains_two _ _ _) eq_refl).
    - reflexivity.
    - cbn [printable_value]. rewrite Hp. reflexivity. }
  rewrite E. split.
  - intros -> -> -> ->. reflexivity.
  - destruct m, fingerprint_ok, visual_ok, history_ok; intros H;
      try reflexivity; decompose [or] H; discriminate.
Qed.

Lemma validate_watson_command_engine_conditions_witness :
  snd (validate_watson_command_engine
         (watson_ready_server (json_response (PList [])))
         (fun _ => 0%Q) (fun _ => "") (init localhost))
  = inr (PBool true).
Proof.
  apply (proj1 (validate_watson_command_engine_conditions
                  (watson_ready_server (json_response (PList [])))
                  (fun _ => 0%Q) (fun _ => "") (init localhost)
                  _ true "WATSON_COMMAND_READY"
                  eq_refl eq_refl eq_refl eq_refl));
    reflexivity.
Defined.

(** C4 as stated fails, in two ways.  With the expected state, and the
    visual-state and history endpoints both answering with status 200, the
    routine returns [False] when the visual-state body is an HTML page.
    And with all three endpoints answering with JSON, [isMemoryAware] true
    and a [fingerprintLock] that contains the accepted literal after an
    unpaired surrogate, the routine raises: printing the fingerprint
    fails. *)
Lemma validate_watson_command_engine_fails_as_stated :
  (let server := watson_ready_server html_response in
   server (localhost ++ "/api/watson/state")
   = json_response
       (PDict [("isMemoryAware", PBool true);
               ("fingerprintLock", PStr "WATSON_COMMAND_READY")])
   /\ responds_200 (server (localhost ++ "/api/watson/visual-state")) = true
   /\ responds_200 (server (localhost ++ "/api/watson/history")) = true
   /\ snd (validate_watson_command_engine server (fun _ => 0%Q)
             (fun _ => "") (init localhost))
      = inr (PBool false))
  /\ (let fp := surrogate_d800 ++ " WATSON_COMMAND_READY" in
      let server := fun _ : string =>
        json_response
          (PDict [("isMemoryAware", PBool true); ("fingerprintLock", PStr fp)]) in
      str_contains "WATSON_COMMAND_READY" fp = true
      /\ responds_200_json (server (localhost ++ "/api/watson/visual-state"))
         = true
      /\ responds_200_json (server (localhost ++ "/api/watson/history")) = true
      /\ snd (validate_watson_command_engine server (fun _ => 0%Q) str_of
                (init localhost))
         = inl (Exn "UnicodeEncodeError"
                  "'utf-8' codec can't encode character '\ud800' in position 24: surrogates not allowed")).
Proof. repeat split. Qed.

(** C5.  When the metrics endpoint succeeds with a JSON object that has
    [isActive = true], [optimizationCycles = 5] and
    [currentEfficiency = 95], [validate_kaizen_agent] returns [True]; with
    [currentEfficiency = 90] instead it returns [False]: the test is
    [efficiency > 90]. *)
Theorem validate_kaizen_agent_efficiency_threshold :
  forall server clock py_str st kvs eff,
    server (base_url st ++ "/api/kaizen/metrics") = json_response (PDict kvs) ->
    dict_lookup kvs "isActive" = Some (PBool true) ->
    dict_lookup kvs "optimizationCycles" = Some (PInt 5) ->
    dict_lookup kvs "currentEfficiency" = Some (PInt eff) ->
    let result := snd (validate_kaizen_agent server clock py_str st) in
    (eff = 95 -> result = inr (PBool true))
    /\ (eff = 90 -> result = inr (PBool false))
    /\ result = inr (PBool (eff >? 90)).
Proof.
  intros server clock py_str st kvs eff Hs Ha Hc He result.
  assert (E : result = inr (PBool (eff >? 90))).
  { unfold result.
    rewrite (validate_kaizen_agent_eq server clock py_str st (PDict kvs)
               (PBool true) (PInt 5) true (PInt eff) (eff >? 90) Hs).
    - reflexivity.
    - simpl. rewrite Ha. reflexivity.
    - simpl. rewrite Hc. reflexivity.
    - reflexivity.
    - simpl. rewrite He. reflexivity.
    - reflexivity. }
  repeat split; try exact E; intros ->; exact E.
Qed.

Lemma validate_kaizen_agent_efficiency_threshold_witness :
  snd (validate_kaizen_agent (kaizen_server 95) (fun _ => 0%Q) (fun _ => "")
         (init localhost))
  = inr (PBool true)
  /\ snd (validate_kaizen_agent (kaizen_server 90) (fun _ => 0%Q)
            (fun _ => "") (init localhost))
     = inr (PBool false).
Proof.
  split.
  - apply (proj1 (validate_kaizen_agent_efficiency_threshold
                    (kaizen_server 95) (fun _ => 0%Q) (fun _ => "")
                    (init localhost) _ 95 eq_refl eq_refl eq_refl eq_refl)).
    reflexivity.
  - apply (proj1 (proj2 (validate_kaizen_agent_efficiency_threshold
                    (kaizen_server 90) (fun _ => 0%Q) (fun _ => "")
                    (init localhost) _ 90 eq_refl eq_refl eq_refl eq_refl))).
    reflexivity.
Defined.

Lemma truthy_py_and a b : truthy (py_and a b) = truthy a && truthy b.
Proof.
  unfold py_and. destruct (truthy a) eqn:E; [reflexivity | exact E].
Qed.

Lemma py_gt_int_error v n e :
  py_gt_int v n = inl e -> exn_class e = "TypeError".
Proof. destruct v; intros [= <-]; reflexivity. Qed.

Lemma py_contains_str_error s v e :
  py_contains_str s v = inl e -> exn_class e = "TypeError".
Proof. destruct v; intros [= <-]; reflexivity. Qed.

Lemma py_any_contains_error fps v e :
  py_any_contains fps v = inl e -> exn_class e = "TypeError".
Proof.
  induction fps as [| fp rest IH]; cbn [py_any_contains]; [discriminate |].
  destruct (py_contains_str fp v) as [e' | [|]] eqn:E.
  - intros [= <-]. exact (py_contains_str_error _ _ _ E).
  - discriminate.
  - exact IH.
Qed.

Lemma skipn_length_app {A : Type} (l new : list A) :
  skipn (List.length l) (l ++ new)%list = new.
Proof. induction l as [| x l IH]; [reflexivity | exact IH]. Qed.

(** Find the failing entry of the given name among the new ones. *)
Ltac failing_entry :=
  first
    [ solve [ eexists; split; [left; reflexivity | split; reflexivity] ]
    | solve [ eexists; split;
              [right; left; reflexivity | split; reflexivity] ]
    | solve [ eexists; split;
              [right; right; left; reflexivity | split; reflexivity] ]
    | solve [ eexists; split;
              [right; right; right; left; reflexivity
              | split; reflexivity] ] ].

Lemma truthy_dict kvs : kvs <> [] -> truthy (PDict kvs) = true.
Proof. destruct kvs; [congruence | reflexivity]. Qed.

Lemma py_len_error v e : py_len v = inl e -> exn_class e = "TypeError".
Proof. destruct v; intros [= <-]; reflexivity. Qed.

Lemma unknown_is_not_good :
  existsb (py_eq_str (PStr "unknown")) ["excellent"; "good"] = false.
Proof. reflexivity. Qed.

(** Settle [treated_as_failing] on one explored path. *)
Ltac treated :=
  unfold treated_as_failing, new_entries;
  cbn [fst snd logged test_results];
  rewrite <- ?app_assoc, skipn_length_app; cbn [app];
  rewrite ?unknown_is_not_good;
  split;
  [ intros t Hin Hname; cbn [In] in Hin;
    repeat (destruct Hin as [<- | Hin];
            [ first [discriminate Hname | reflexivity] |]);
    destruct Hin
  | first
      [ left; eapply py_gt_int_error; eassumption
      | left; eapply py_any_contains_error; eassumption
      | left; eapply py_len_error; eassumption
      | right; reflexivity
      | split;
        [ rewrite ?truthy_py_and; cbn [truthy andb];
          rewrite ?andb_false_r; reflexivity
        | failing_entry ] ] ].

Lemma no_fingerprint_no_match :
  py_any_contains
    ["WATSON_COMMAND_READY"; "WATSON_FINAL_INFINITY_PATCH_2025_06_05"]
    (PStr "")
  = inr false.
Proof. reflexivity. Qed.

(** Explore the routine on an object body in which one field is missing. *)
Ltac missing_field Hs Hm :=
  match goal with
  | |- treated_as_failing _ ?run _ =>
      let E := fresh "Erun" in
      destruct run as [st' r] eqn:E; revert E
  end;
  unfold validate_kaizen_agent, validate_watson_command_engine;
  rewrite bind_test_api_endpoint, Hs, check_of_json;
  cbn [success data negb py_get]; rewrite Hm;
  explore;
  repeat match goal with
    | E : py_gt_int (PInt 0) _ = _ |- _ =>
        cbn [py_gt_int Z.gtb Z.compare] in E;
        first [discriminate E | injection E as <-]
    | E : py_any_contains _ (PStr "") = _ |- _ =>
        cbn [fingerprint_lock logged] in E;
        try match goal with
            | Hl : fingerprint_lock _ = _ |- _ => rewrite Hl in E
            end;
        rewrite no_fingerprint_no_match in E;
        first [discriminate E | injection E as <-]
    end;
  treated.

Lemma kaizen_missing_active server clock py_str st kvs :
  server (base_url st ++ "/api/kaizen/metrics") = json_response (PDict kvs) ->
  dict_lookup kvs "isActive" = None ->
  treated_as_failing st (validate_kaizen_agent server clock py_str st)
    "Kaizen Agent Active".
Proof. intros Hs Hm. missing_field Hs Hm. Qed.

Lemma kaizen_missing_cycles server clock py_str st kvs :
  server (base_url st ++ "/api/kaizen/metrics") = json_response (PDict kvs) ->
  dict_lookup kvs "optimizationCycles" = None ->
  treated_as_failing st (validate_kaizen_agent server clock py_str st)
    "Kaizen Optimization Cycles".
Proof. intros Hs Hm. missing_field Hs Hm. Qed.

Lemma kaizen_missing_efficiency server clock py_str st kvs :
  server (base_url st ++ "/api/kaizen/metrics") = json_response (PDict kvs) ->
  dict_lookup kvs "currentEfficiency" = None ->
  treated_as_failing st (validate_kaizen_agent server clock py_str st)
    "Kaizen System Efficiency".
Proof. intros Hs Hm. missing_field Hs Hm. Qed.

Lemma watson_missing_memory server clock py_str st kvs :
  server (base_url st ++ "/api/watson/state") = json_response (PDict kvs) ->
  dict_lookup kvs "isMemoryAware" = None ->
  treated_as_failing st (validate_watson_command_engine server clock py_str st)
    "Watson Memory Awareness".
Proof. intros Hs Hm. missing_field Hs Hm. Qed.

Lemma watson_missing_fingerprint server clock py_str st kvs :
  server (base_url st ++ "/api/watson/state") = json_response (PDict kvs) ->
  fingerprint_lock st = "WATSON_COMMAND_READY" ->
  dict_lookup kvs "fingerprintLock" = None ->
  treated_as_failing st (validate_watson_command_engine server clock py_str st)
    "Watson Fingerprint Lock".
Proof. intros Hs Hl Hm. missing_field Hs Hm. Qed.

(** The same for the two routines that extract fields only from data
    that is not empty. *)
Ltac missing_field_of_data Hs Hne Hm :=
  match goal with
  | |- treated_as_failing _ ?run _ =>
      let E := fresh "Erun" in
      destruct run as [st' r] eqn:E; revert E
  end;
  unfold validate_infinity_sovereign, validate_market_intelligence;
  rewrite !bind_test_api_endpoint, Hs, check_of_json;
  cbn [success data andb py_get]; repeat logs;
  rewrite (truthy_dict _ Hne), Hm;
  explore;
  repeat match goal with
    | E : py_gt_int (PInt 0) _ = _ |- _ =>
        cbn [py_gt_int Z.gtb Z.compare] in E;
        first [discriminate E | injection E as <-]
    | E : py_len (PList []) = _ |- _ =>
        cbn [py_len List.length Z.of_nat] in E;
        first [discriminate E | injection E as <-]
    end;
  treated.

Lemma infinity_missing_health server clock py_str st kvs :
  server (base_url st ++ "/api/infinity/health") = json_response (PDict kvs) ->
  kvs <> [] ->
  dict_lookup kvs "overallHealth" = None ->
  treated_as_failing st (validate_infinity_sovereign server clock py_str st)
    "System Health Status".
Proof. intros Hs Hne Hm. missing_field_of_data Hs Hne Hm. Qed.

Lemma infinity_missing_security server clock py_str st kvs :
  server (base_url st ++ "/api/infinity/health") = json_response (PDict kvs) ->
  kvs <> [] ->
  dict_lookup kvs "securityStatus" = None ->
  treated_as_failing st (validate_infinity_sovereign server clock py_str st)
    "Security Status".
Proof. intros Hs Hne Hm. missing_field_of_data Hs Hne Hm. Qed.

Lemma market_missing_points server clock py_str st kvs :
  server (base_url st ++ "/api/market/summary") = json_response (PDict kvs) ->
  kvs <> [] ->
  dict_lookup kvs "totalDataPoints" = None ->
  treated_as_failing st (validate_market_intelligence server clock py_str st)
    "Market Data Collection".
Proof. intros Hs Hne Hm. missing_field_of_data Hs Hne Hm. Qed.

Lemma market_missing_sources server clock py_str st kvs :
  server (base_url st ++ "/api/market/summary") = json_response (PDict kvs) ->
  kvs <> [] ->
  dict_lookup kvs "activeSources" = None ->
  treated_as_failing st (validate_market_intelligence server clock py_str st)
    "Market Data Sources".
Proof. intros Hs Hne Hm. missing_field_of_data Hs Hne Hm. Qed.




(* ===================================================================== *)
(** ** The market-intelligence and UI-readiness routines *)

(** C6: the code at the failing input.  The summary endpoint succeeds
    with data and the alerts endpoint fails: the routine logs
    ["Market Alerts Access"] as failing and still returns [True], which is
    not the conjunction of the four flags it logged. *)
Theorem validate_market_intelligence_ignores_alerts :
  let r := validate_market_intelligence alerts_down_server (fun _ => 0%Q)
             (fun _ => "") (init localhost) in
  snd r = inr (PBool true)
  /\ map (fun t => (test t, passed t)) (test_results (fst r))
     = [ ("Market Summary Access", PBool true);
         ("Market Alerts Access", PBool false);
         ("Market Data Collection", PBool true);
         ("Market Data Sources", PBool true) ]
  /\ forallb (fun t => truthy (passed t)) (test_results (fst r)) = false.
Proof. repeat split. Qed.

Lemma validate_ui_readiness_eq server clock st :
  let ok := responds_200_json (server (base_url st ++ "/")) in
  validate_ui_readiness server clock st
  = (logged clock
       (logged clock st "Dashboard UI Access" (PBool ok) "")
       "WebSocket Configuration" (PBool true) "",
     inr (PBool ok)).
Proof.
  intros ok. unfold validate_ui_readiness.
  repeat step. rewrite success_check_of. fold ok.
  destruct ok; reflexivity.
Qed.

(** C10: the code at the failing input.  The root path answers with
    status 200 and an HTML page: the ["WebSocket Configuration"] sub-check
    is logged as passed, and the routine returns [False]. *)
Theorem validate_ui_readiness_html_root :
  let r := validate_ui_readiness html_server (fun _ => 0%Q)
             (init localhost) in
  responds_200 (html_server (localhost ++ "/")) = true
  /\ snd r = inr (PBool false)
  /\ map (fun t => (test t, passed t)) (test_results (fst r))
     = [ ("Dashboard UI Access", PBool false);
         ("WebSocket Configuration", PBool true) ].
Proof. repeat split. Qed.

(* ===================================================================== *)
(** ** The orchestration loop *)

Lemma dict_set_fresh {A : Type} (kvs : list (string * A)) key (v : A) :
  ~ In key (map fst kvs) -> dict_set kvs key v = (kvs ++ [(key, v)])%list.
Proof.
  induction kvs as [| [k w] rest IH]; intros Hn; [reflexivity |].
  simpl in *. destruct (String.eqb_spec k key) as [-> | Hne].
  - exfalso. apply Hn. left. reflexivity.
  - rewrite IH; [reflexivity |]. intros Hin. apply Hn. right. exact Hin.
Qed.

Lemma run_tests_categories clock tests :
  forall acc overall st,
    NoDup (map fst acc ++ map fst tests) ->
    exists rs st',
      run_tests clock tests acc overall st
      = (st', inr ((acc ++ rs)%list,
                   overall && forallb (fun r => truthy (snd r)) rs))
      /\ categories_run clock st tests rs st'.
Proof.
  induction tests as [| [name f] rest IH]; intros acc overall st Hnd.
  - exists [], st. split; [| constructor].
    simpl. unfold ret. rewrite app_nil_r, andb_true_r. reflexivity.
  - simpl in Hnd.
    assert (Hfresh : ~ In name (map fst acc)).
    { apply NoDup_remove_2 in Hnd. intros Hin. apply Hnd.
      apply in_or_app. left. exact Hin. }
    assert (Hnd' : forall v : pyval,
               NoDup (map fst (acc ++ [(name, v)]) ++ map fst rest)).
    { intros v. rewrite map_app. simpl. rewrite <- app_assoc. exact Hnd. }
    cbn [run_tests]. unfold bind at 1, try_except, bind at 1.
    destruct (f st) as [st1 [e | v]] eqn:Ef.
    + logs. unfold ret at 1. cbn [fst snd].
      rewrite dict_set_fresh by exact Hfresh.
      destruct (IH (acc ++ [(name, PBool false)])%list false
                  (logged clock st1 (name ++ " Exception") (PBool false)
                     (exn_text e)) (Hnd' _))
        as (rs & st' & E & Hrun).
      exists ((name, PBool false) :: rs), st'. split.
      * rewrite E. rewrite <- app_assoc. cbn [forallb snd truthy app].
        rewrite andb_false_r. reflexivity.
      * eapply run_raised; eassumption.
    + unfold ret at 1. cbn [fst snd].
      rewrite dict_set_fresh by exact Hfresh.
      destruct (IH (acc ++ [(name, v)])%list
                  (if negb (truthy v) then false else overall) st1 (Hnd' _))
        as (rs & st' & E & Hrun).
      exists ((name, v) :: rs), st'. split.
      * rewrite E. rewrite <- app_assoc. cbn [forallb snd app].
        destruct (truthy v), overall; reflexivity.
      * eapply run_returned; eassumption.
Qed.

Lemma bind_time_time {B : Type} clock (k : Q -> M B) st :
  bind (time_time clock) k st = k (clock (clock_reads st)) (tick st).
Proof. reflexivity. Qed.

(** The [tests] list of the program is an instance of [six_categories]. *)
Lemma tests_six_categories server clock py_str :
  tests server clock py_str
  = six_categories
      (validate_dashboard_modules server clock py_str)
      (validate_watson_command_engine server clock py_str)
      (validate_kaizen_agent server clock py_str)
      (validate_infinity_sovereign server clock py_str)
      (validate_market_intelligence server clock py_str)
      (validate_ui_readiness server clock).
Proof. reflexivity. Qed.

(** C2.  Whatever the six category routines do, the orchestration never
    raises.  It calls every category in the fixed order, each in the state
    its predecessor left: the result of a category that returns is
    recorded under its name, an exception raised by a category is caught,
    recorded as [False] and logged as exactly one failing entry
    ["<name> Exception"] whose details are the exception text, and the
    remaining categories are still called.  [overall_success] is the
    conjunction of the six recorded results. *)
Theorem run_validation_catches_exceptions :
  forall clock f1 f2 f3 f4 f5 f6 st,
    let tests := six_categories f1 f2 f3 f4 f5 f6 in
    exists rep st_end,
      run_validation clock tests st = (tick st_end, inr rep)
      /\ categories_run clock (tick st) tests (results rep) st_end
      /\ map fst (results rep) = map fst tests
      /\ overall_success rep
         = forallb (fun r => truthy (snd r)) (results rep)
      /\ (forall s name e,
            test_results (failure_logged clock s name e)
            = (test_results s
               ++ [ {| test := name ++ " Exception";
                       status := "✗ FAIL";
                       passed := PBool false;
                       details := exn_text e;
                       timestamp := clock (clock_reads s) |} ])%list).
Proof.
  intros clock f1 f2 f3 f4 f5 f6 st tests.
  destruct (run_tests_categories clock tests [] true (tick st))
    as (rs & st_end & E & Hrun).
  { unfold tests, six_categories. cbn [map fst app].
    repeat constructor; cbn [In]; intuition discriminate. }
  eexists. exists st_end. split; [| split; [| split; [| split]]].
  - unfold run_validation. rewrite bind_time_time.
    unfold bind at 1. rewrite E. rewrite bind_time_time.
    rewrite bind_gets, bind_gets. reflexivity.
  - exact Hrun.
  - cbn [results fst app].
    clear E. unfold tests, six_categories in *.
    repeat match goal with
           | H : categories_run _ _ (_ :: _) _ _ |- _ => inversion H; clear H; subst
           | H : categories_run _ _ [] _ _ |- _ => inversion H; clear H; subst
           end; reflexivity.
  - reflexivity.
  - reflexivity.
Qed.

(* ===================================================================== *)
(** ** The report *)

Lemma run_tests_returns clock tests :
  forall acc overall st,
  exists st' r, run_tests clock tests acc overall st = (st', inr r).
Proof.
  induction tests as [| [name f] rest IH]; intros acc overall st.
  - exists st, (acc, overall). reflexivity.
  - cbn [run_tests]. unfold bind at 1, try_except, bind at 1.
    destruct (f st) as [st1 [e | v]].
    + logs. unfold ret at 1. apply IH.
    + unfold ret at 1. apply IH.
Qed.

Lemma sum_of_ones {A : Type} (l : list A) :
  forall acc,
    fold_left Z.add (map (fun _ => 1) l) acc = acc + Z.of_nat (List.length l).
Proof.
  induction l as [| x l IH]; intros acc.
  - simpl. lia.
  - cbn [map fold_left List.length]. rewrite IH. lia.
Qed.

Lemma count_passed_eq trs :
  count_passed trs
  = Z.of_nat (List.length (filter (fun t => truthy (passed t)) trs)).
Proof. unfold count_passed. rewrite sum_of_ones. lia. Qed.


(* ===================================================================== *)
(** ** Independence from the clock *)

Section Determinism.

Variable server : string -> exn + response.
Variables clock1 clock2 : nat -> Q.
Variable py_str : pyval -> string.

Lemma same_run_ret {A : Type} (a : A) : same_run (ret a) (ret a).
Proof. intros s1 s2 H. split; [exact H | reflexivity]. Qed.

Lemma same_run_lift {A : Type} (r : exn + A) : same_run (lift r) (lift r).
Proof. intros s1 s2 H. split; [exact H | reflexivity]. Qed.

Lemma same_run_bind {A B : Type} (m1 m2 : M A) (k1 k2 : A -> M B) :
  same_run m1 m2 ->
  (forall a, same_run (k1 a) (k2 a)) ->
  same_run (bind m1 k1) (bind m2 k2).
Proof.
  intros Hm Hk s1 s2 H. unfold bind.
  destruct (Hm s1 s2 H) as [Hs Hr].
  destruct (m1 s1) as [t1 r1], (m2 s2) as [t2 r2]. simpl in Hs, Hr.
  subst r2. destruct r1 as [e | a].
  - split; [exact Hs | reflexivity].
  - apply Hk. exact Hs.
Qed.

Lemma same_run_try_except {A : Type} (m1 m2 : M A) (h1 h2 : exn -> M A) :
  same_run m1 m2 ->
  (forall e, same_run (h1 e) (h2 e)) ->
  same_run (try_except m1 h1) (try_except m2 h2).
Proof.
  intros Hm Hh s1 s2 H. unfold try_except.
  destruct (Hm s1 s2 H) as [Hs Hr].
  destruct (m1 s1) as [t1 r1], (m2 s2) as [t2 r2]. simpl in Hs, Hr.
  subst r2. destruct r1 as [e | a].
  - apply Hh. exact Hs.
  - split; [exact Hs | reflexivity].
Qed.

Lemma same_run_gets {A : Type} (f : state -> A) :
  (forall s1 s2, same_but_time s1 s2 -> f s1 = f s2) ->
  same_run (gets f) (gets f).
Proof. intros Hf s1 s2 H. split; [exact H | simpl; f_equal; auto]. Qed.

Lemma same_run_log_test test_name p d :
  same_run (log_test clock1 test_name p d) (log_test clock2 test_name p d).
Proof.
  intros s1 s2 (Hb & Ht & Hf). rewrite !log_test_eq.
  split; [| reflexivity]. unfold logged. cbn [fst].
  repeat split; cbn [base_url test_results fingerprint_lock]; auto.
  rewrite !map_app, Ht. reflexivity.
Qed.

Lemma same_run_test_api_endpoint endpoint expected :
  same_run (test_api_endpoint server endpoint expected)
           (test_api_endpoint server endpoint expected).
Proof.
  intros s1 s2 H. rewrite !test_api_endpoint_eq. cbn [fst snd].
  split; [exact H |]. destruct H as (-> & _). reflexivity.
Qed.

Ltac same_run_step :=
  first
    [ apply same_run_ret
    | apply same_run_lift
    | apply same_run_log_test
    | apply same_run_test_api_endpoint
    | apply same_run_gets; intros ? ? (? & ? & ?); congruence
    | apply same_run_bind; [| intro]
    | match goal with
      | |- same_run (if ?b then _ else _) (if ?b then _ else _) =>
          destruct b
      end ].

Lemma same_run_sweep mods :
  forall passed_count,
    same_run (sweep server clock1 py_str mods passed_count)
             (sweep server clock2 py_str mods passed_count).
Proof.
  induction mods as [| module rest IH]; intros passed_count; cbn [sweep].
  - apply same_run_ret.
  - repeat same_run_step; apply IH.
Qed.

Lemma same_run_dashboard :
  same_run (validate_dashboard_modules server clock1 py_str)
           (validate_dashboard_modules server clock2 py_str).
Proof.
  unfold validate_dashboard_modules.
  apply same_run_bind; [apply same_run_sweep |]. intro.
  repeat same_run_step.
Qed.

Lemma same_run_watson :
  same_run (validate_watson_command_engine server clock1 py_str)
           (validate_watson_command_engine server clock2 py_str).
Proof. unfold validate_watson_command_engine. repeat same_run_step. Qed.

Lemma same_run_kaizen :
  same_run (validate_kaizen_agent server clock1 py_str)
           (validate_kaizen_agent server clock2 py_str).
Proof. unfold validate_kaizen_agent. repeat same_run_step. Qed.

Lemma same_run_infinity :
  same_run (validate_infinity_sovereign server clock1 py_str)
           (validate_infinity_sovereign server clock2 py_str).
Proof. unfold validate_infinity_sovereign. repeat same_run_step. Qed.

Lemma same_run_market :
  same_run (validate_market_intelligence server clock1 py_str)
           (validate_market_intelligence server clock2 py_str).
Proof. unfold validate_market_intelligence. repeat same_run_step. Qed.

Lemma same_run_ui :
  same_run (validate_ui_readiness server clock1)
           (validate_ui_readiness server clock2).
Proof. unfold validate_ui_readiness. repeat same_run_step. Qed.

Lemma same_run_run_tests tests1 tests2 :
  Forall2 (fun t1 t2 => fst t1 = fst t2 /\ same_run (snd t1) (snd t2))
    tests1 tests2 ->
  forall acc overall,
    same_run (run_tests clock1 tests1 acc overall)
             (run_tests clock2 tests2 acc overall).
Proof.
  induction 1 as [| [n1 f1] [n2 f2] l1 l2 [Hn Hf] _ IH]; intros acc overall;
    cbn [run_tests].
  - apply same_run_ret.
  - cbn [fst snd] in Hn, Hf. subst n2.
    apply same_run_bind; [| intro; apply IH].
    apply same_run_try_except.
    + apply same_run_bind; [exact Hf | intro; apply same_run_ret].
    + intro. repeat same_run_step.
Qed.

Lemma same_run_tests :
  Forall2 (fun t1 t2 => fst t1 = fst t2 /\ same_run (snd t1) (snd t2))
    (tests server clock1 py_str) (tests server clock2 py_str).
Proof.
  unfold tests.
  repeat (constructor; [split; [reflexivity | cbn [snd]] |]);
    [ apply same_run_dashboard | apply same_run_watson
    | apply same_run_kaizen | apply same_run_infinity
    | apply same_run_market | apply same_run_ui | constructor ].
Qed.

End Determinism.

Lemma count_passed_untimed trs1 trs2 :
map untimed trs1 = map untimed trs2 ->
count_passed trs1 = count_passed trs2
/\ List.length trs1 = List.length trs2.
Proof.
revert trs2. induction trs1 as [| t1 l1 IH]; intros [| t2 l2] H;
  try discriminate.
- split; reflexivity.
- cbn [map] in H. unfold untimed at 1 3 in H.
  assert (Hp : passed t1 = passed t2) by congruence.
  assert (Hl : map untimed l1 = map untimed l2) by congruence.
  destruct (IH l2 Hl) as [Hc Hlen]. rewrite !count_passed_eq in *.
  cbn [filter List.length]. rewrite Hp.
  destruct (truthy (passed t2)); cbn [List.length]; split; lia.
Qed.

(** C9.  Two runs on fresh validators against the same server return
  reports with the same [overall_success], [passed_tests] and
  [total_tests] (and the same per-category results), whatever the two
  clocks read. *)
Theorem run_comprehensive_validation_deterministic :
forall server py_str clock1 clock2 url,
exists rep1 st1 rep2 st2,
  run_comprehensive_validation server clock1 py_str (init url)
  = (st1, inr rep1)
  /\ run_comprehensive_validation server clock2 py_str (init url)
     = (st2, inr rep2)
  /\ overall_success rep1 = overall_success rep2
  /\ passed_tests rep1 = passed_tests rep2
  /\ total_tests rep1 = total_tests rep2
  /\ results rep1 = results rep2.
Proof.
intros server py_str clock1 clock2 url.
unfold run_comprehensive_validation, run_validation.
pose proof (same_run_run_tests clock1 clock2 _ _
              (same_run_tests server clock1 clock2 py_str) [] true
              (tick (init url)) (tick (init url))) as Hsame.
destruct (run_tests_returns clock1 (tests server clock1 py_str) [] true
            (tick (init url))) as (s1 & r1 & E1).
destruct (run_tests_returns clock2 (tests server clock2 py_str) [] true
            (tick (init url))) as (s2 & r2 & E2).
rewrite E1, E2 in Hsame. cbn [fst snd] in Hsame.
destruct Hsame as [(_ & Ht & _) Hr]; [repeat split |].
injection Hr as ->.
destruct (count_passed_untimed _ _ Ht) as [Hc Hl].
do 4 eexists. split; [| split].
- rewrite bind_time_time. unfold bind at 1. rewrite E1.
  rewrite bind_time_time, bind_gets, bind_gets. reflexivity.
- rewrite bind_time_time. unfold bind at 1. rewrite E2.
  rewrite bind_time_time, bind_gets, bind_gets. reflexivity.
- cbn [overall_success passed_tests total_tests results tick test_results].
  rewrite Hc, Hl. repeat split.
Qed.

(* ===================================================================== *)
(** ** The log only grows *)

Lemma stamped_weaken clock lo hi lo' hi' t :
  (lo' <= lo)%nat -> (hi <= hi')%nat ->
  stamped clock lo hi t -> stamped clock lo' hi' t.
Proof. intros Hlo Hhi (i & Hi & E). exists i. split; [lia | exact E]. Qed.

Lemma log_grows_refl clock st : log_grows clock st st.
Proof.
  repeat split; try reflexivity; try lia.
  exists []. rewrite app_nil_r. repeat split; constructor.
Qed.

Lemma log_grows_trans clock st1 st2 st3 :
  log_grows clock st1 st2 -> log_grows clock st2 st3 ->
  log_grows clock st1 st3.
Proof.
  intros (Hb1 & Hf1 & Hc1 & new1 & E1 & Ha1 & Hs1)
         (Hb2 & Hf2 & Hc2 & new2 & E2 & Ha2 & Hs2).
  repeat split; try congruence; try lia.
  exists (new1 ++ new2)%list. repeat split.
  - rewrite E2, E1, app_assoc. reflexivity.
  - apply Forall_app. split; assumption.
  - apply Forall_app. split.
    + eapply Forall_impl; [| exact Hs1]. intros t.
      apply stamped_weaken; lia.
    + eapply Forall_impl; [| exact Hs2]. intros t.
      apply stamped_weaken; lia.
Qed.

Lemma log_grows_logged clock st test_name p d :
  log_grows clock st (logged clock st test_name p d).
Proof.
  repeat split; cbn [logged base_url fingerprint_lock clock_reads]; try lia.
  eexists. cbn [logged test_results]. repeat split.
  - repeat constructor.
  - repeat constructor. exists (clock_reads st). split; [lia | reflexivity].
Qed.

Lemma keeps_log_ret {A : Type} clock (a : A) : keeps_log clock (ret a).
Proof. intros st. apply log_grows_refl. Qed.

Lemma keeps_log_lift {A : Type} clock (r : exn + A) : keeps_log clock (lift r).
Proof. intros st. apply log_grows_refl. Qed.

Lemma keeps_log_gets {A : Type} clock (f : state -> A) :
  keeps_log clock (gets f).
Proof. intros st. apply log_grows_refl. Qed.

Lemma keeps_log_log_test clock test_name p d :
  keeps_log clock (log_test clock test_name p d).
Proof. intros st. rewrite log_test_eq. apply log_grows_logged. Qed.

Lemma keeps_log_test_api_endpoint clock server endpoint expected :
  keeps_log clock (test_api_endpoint server endpoint expected).
Proof. intros st. rewrite test_api_endpoint_eq. apply log_grows_refl. Qed.

Lemma keeps_log_bind {A B : Type} clock (m : M A) (k : A -> M B) :
  keeps_log clock m -> (forall a, keeps_log clock (k a)) ->
  keeps_log clock (bind m k).
Proof.
  intros Hm Hk st. unfold bind. specialize (Hm st).
  destruct (m st) as [st1 [e | a]]; cbn [fst] in *; [exact Hm |].
  eapply log_grows_trans; [exact Hm | apply Hk].
Qed.

Lemma keeps_log_try_except {A : Type} clock (m : M A) (h : exn -> M A) :
  keeps_log clock m -> (forall e, keeps_log clock (h e)) ->
  keeps_log clock (try_except m h).
Proof.
  intros Hm Hh st. unfold try_except. specialize (Hm st).
  destruct (m st) as [st1 [e | a]]; cbn [fst] in *; [| exact Hm].
  eapply log_grows_trans; [exact Hm | apply Hh].
Qed.

Ltac keeps_log_step :=
  first
    [ apply keeps_log_ret
    | apply keeps_log_lift
    | apply keeps_log_gets
    | apply keeps_log_log_test
    | apply keeps_log_test_api_endpoint
    | apply keeps_log_bind; [| intro]
    | match goal with
      | |- keeps_log _ (if ?b then _ else _) => destruct b
      end ].

Lemma keeps_log_sweep server clock py_str mods :
  forall passed_count, keeps_log clock (sweep server clock py_str mods passed_count).
Proof.
  induction mods as [| module rest IH]; intros passed_count; cbn [sweep].
  - apply keeps_log_ret.
  - repeat keeps_log_step; apply IH.
Qed.

Lemma keeps_log_tests server clock py_str :
  Forall (fun t => keeps_log clock (snd t)) (tests server clock py_str).
Proof.
  unfold tests.
  repeat (apply Forall_cons; [cbn [snd] |]); [ | | | | | | apply Forall_nil].
  - unfold validate_dashboard_modules.
    apply keeps_log_bind; [apply keeps_log_sweep | intro].
    repeat keeps_log_step.
  - unfold validate_watson_command_engine. repeat keeps_log_step.
  - unfold validate_kaizen_agent. repeat keeps_log_step.
  - unfold validate_infinity_sovereign. repeat keeps_log_step.
  - unfold validate_market_intelligence. repeat keeps_log_step.
  - unfold validate_ui_readiness. repeat keeps_log_step.
Qed.

Lemma keeps_log_run_tests clock tests :
  Forall (fun t => keeps_log clock (snd t)) tests ->
  forall acc overall, keeps_log clock (run_tests clock tests acc overall).
Proof.
  induction 1 as [| [name f] rest Hf _ IH]; intros acc overall;
    cbn [run_tests].
  - apply keeps_log_ret.
  - cbn [snd] in Hf.
    apply keeps_log_bind; [| intro; apply IH].
    apply keeps_log_try_except.
    + apply keeps_log_bind; [exact Hf | intro; apply keeps_log_ret].
    + intro. repeat keeps_log_step.
Qed.

Lemma log_grows_tick clock st : log_grows clock st (tick st).
Proof.
  repeat split; cbn [tick base_url fingerprint_lock clock_reads]; try lia.
  exists []. cbn [tick test_results]. rewrite app_nil_r.
  repeat split; constructor.
Qed.

Lemma run_validation_eq clock tests st :
  exists st1 r,
    run_tests clock tests [] true (tick st) = (st1, inr r)
    /\ run_validation clock tests st
       = (tick st1,
          inr {| overall_success := snd r;
                 success_rate :=
                   rate (count_passed (test_results st1))
                     (Z.of_nat (List.length (test_results st1)));
                 passed_tests := count_passed (test_results st1);
                 total_tests := Z.of_nat (List.length (test_results st1));
                 duration := (clock (clock_reads st1) - clock (clock_reads st))%Q;
                 results := fst r;
                 test_details := test_results st1;
                 fingerprint_validated := fingerprint_lock st1 |}).
Proof.
  destruct (run_tests_returns clock tests [] true (tick st)) as (st1 & r & E).
  exists st1, r. split; [exact E |].
  unfold run_validation. rewrite bind_time_time.
  unfold bind at 1. rewrite E. rewrite bind_time_time.
  rewrite bind_gets, bind_gets. reflexivity.
Qed.

Lemma run_validation_log_grows clock tests st :
  Forall (fun t => keeps_log clock (snd t)) tests ->
  exists st1 r,
    run_tests clock tests [] true (tick st) = (st1, inr r)
    /\ log_grows clock (tick st) st1
    /\ run_validation clock tests st
       = (tick st1,
          inr {| overall_success := snd r;
                 success_rate :=
                   rate (count_passed (test_results st1))
                     (Z.of_nat (List.length (test_results st1)));
                 passed_tests := count_passed (test_results st1);
                 total_tests := Z.of_nat (List.length (test_results st1));
                 duration := (clock (clock_reads st1) - clock (clock_reads st))%Q;
                 results := fst r;
                 test_details := test_results st1;
                 fingerprint_validated := fingerprint_lock st1 |}).
Proof.
  intros Hk. destruct (run_validation_eq clock tests st) as (st1 & r & E & Er).
  exists st1, r. split; [exact E | split; [| exact Er]].
  pose proof (keeps_log_run_tests clock tests Hk [] true (tick st)) as H.
  rewrite E in H. exact H.
Qed.

(** X1.  A run never rewrites what it finds: the log after the run is the
    log before it followed by the new entries, the report lists exactly
    that log, the base URL and the fingerprint of the validator are
    untouched, and the fingerprint in the report is the validator's. *)
Theorem run_only_appends :
  forall server clock py_str st,
  exists rep st' new,
    run_comprehensive_validation server clock py_str st = (st', inr rep)
    /\ test_results st' = (test_results st ++ new)%list
    /\ test_details rep = (test_results st ++ new)%list
    /\ base_url st' = base_url st
    /\ fingerprint_lock st' = fingerprint_lock st
    /\ fingerprint_validated rep = fingerprint_lock st.
Proof.
  intros server clock py_str st.
  destruct (run_validation_log_grows clock (tests server clock py_str) st
              (keeps_log_tests server clock py_str))
    as (st1 & r & _ & (Hb & Hf & _ & new & En & _) & E).
  eexists. exists (tick st1), new. split; [exact E |].
  cbn [tick test_results base_url fingerprint_lock test_details
         fingerprint_validated] in *.
  repeat split; assumption.
Qed.

(** X2.  Every entry logged during a run carries the status text that
    belongs to its flag: the PASS marker when [passed] is true, the FAIL
    marker otherwise. *)
Theorem logged_status_agrees :
  forall server clock py_str st,
  exists rep st' new,
    run_comprehensive_validation server clock py_str st = (st', inr rep)
    /\ test_details rep = (test_results st ++ new)%list
    /\ Forall (fun t => status t
                        = if truthy (passed t) then "✓ PASS" else "✗ FAIL")
         new.
Proof.
  intros server clock py_str st.
  destruct (run_validation_log_grows clock (tests server clock py_str) st
              (keeps_log_tests server clock py_str))
    as (st1 & r & _ & (_ & _ & _ & new & En & Ha & _) & E).
  eexists. exists (tick st1), new. split; [exact E |].
  cbn [tick test_results test_details] in *.
  split; [exact En | exact Ha].
Qed.

(** X3.  With a clock that never runs backwards, the measured duration is
    not negative and every entry logged during the run is stamped between
    the start time and the end time of the run. *)
Theorem timestamps_within_run :
  forall server clock py_str st,
    (forall i j, (i <= j)%nat -> (clock i <= clock j)%Q) ->
    exists rep st' new,
      run_comprehensive_validation server clock py_str st = (st', inr rep)
      /\ test_details rep = (test_results st ++ new)%list
      /\ (0 <= duration rep)%Q
      /\ Forall (fun t =>
                   (clock (clock_reads st) <= timestamp t)%Q
                   /\ (timestamp t <= clock (clock_reads st) + duration rep)%Q)
           new.
Proof.
  intros server clock py_str st Hmono.
  destruct (run_validation_log_grows clock (tests server clock py_str) st
              (keeps_log_tests server clock py_str))
    as (st1 & r & _ & (_ & _ & Hc & new & En & _ & Hs) & E).
  eexists. exists (tick st1), new. split; [exact E |].
  cbn [tick test_results test_details clock_reads duration] in *.
  split; [exact En |].
  assert (H01 : (clock (clock_reads st) <= clock (clock_reads st1))%Q)
    by (apply Hmono; lia).
  split; [lra |].
  eapply Forall_impl; [| exact Hs].
  intros t (i & Hi & ->).
  assert (H0i : (clock (clock_reads st) <= clock i)%Q) by (apply Hmono; lia).
  assert (Hi1 : (clock i <= clock (clock_reads st1))%Q) by (apply Hmono; lia).
  split; lra.
Qed.

Lemma timestamps_within_run_witness :
  exists rep,
    snd (run_comprehensive_validation html_server
           (fun n => inject_Z (Z.of_nat n)) (fun _ => "") (init localhost))
    = inr rep
    /\ (0 <= duration rep)%Q.
Proof.
  destruct (timestamps_within_run html_server
              (fun n => inject_Z (Z.of_nat n)) (fun _ => "") (init localhost))
    as (rep & st' & new & E & _ & Hd & _).
  - intros i j Hij. rewrite <- Zle_Qle. lia.
  - exists rep. rewrite E. split; [reflexivity | exact Hd].
Defined.

(* ===================================================================== *)
(** ** What each category logs *)

Lemma sweep_log server clock py_str mods :
  forall passed_count st,
    map (fun t => (test t, passed t))
      (test_results (fst (sweep server clock py_str mods passed_count st)))
    = (map (fun t => (test t, passed t)) (test_results st)
       ++ map (fun p => (("Module Access: " ++ p)%string,
                         PBool (responds_200_json
                                  (server (base_url st ++ p)%string))))
            mods)%list.
Proof.
  induction mods as [| module rest IH]; intros passed_count st.
  - cbn [sweep map]. rewrite app_nil_r. reflexivity.
  - cbn [sweep]. rewrite bind_test_api_endpoint, success_check_of.
    destruct (responds_200_json (server (base_url st ++ module))) eqn:Eok;
      logs; rewrite IH; cbn [logged test_results base_url map render];
      rewrite map_app, <- app_assoc; cbn [map app test passed];
      rewrite Eok; reflexivity.
Qed.

(** X4.  The module-access sweep never raises and logs exactly fifteen
    entries: one ["Module Access: <path>"] entry per module path, in the
    order of the list and flagged with the outcome of that path, and then
    the ["Dashboard Module Access"] entry flagged with the result. *)
Theorem validate_dashboard_modules_log :
  forall server clock py_str st,
  exists st' b,
    validate_dashboard_modules server clock py_str st = (st', inr (PBool b))
    /\ map (fun t => (test t, passed t)) (test_results st')
       = (map (fun t => (test t, passed t)) (test_results st)
          ++ map (fun p =>
                    (("Module Access: " ++ p)%string,
                     PBool (responds_200_json
                              (server (base_url st ++ p)%string))))
               modules
          ++ [("Dashboard Module Access", PBool b)])%list
    /\ List.length (test_results st')
       = (List.length (test_results st) + 15)%nat.
Proof.
  intros server clock py_str st.
  pose proof (sweep_log server clock py_str modules 0 st) as Hlog.
  unfold validate_dashboard_modules.
  destruct (sweep_eq server clock py_str modules 0 st) as (st1 & E & _).
  unfold bind at 1. rewrite E in *. cbn [fst] in Hlog.
  logs. unfold ret.
  eexists. eexists. split; [reflexivity |].
  cbn [logged test_results]. split.
  - rewrite map_app, Hlog, <- app_assoc. reflexivity.
  - apply (f_equal (@List.length _)) in Hlog.
    rewrite length_app, !length_map in Hlog. rewrite length_app.
    cbn [List.length modules] in *. lia.
Qed.

Ltac count_entries :=
  cbn [fst snd logged test_results]; rewrite ?length_app;
  cbn [List.length]; lia.

Ltac contributes_by_paths f :=
  let st := fresh "st" in
  let E := fresh "E" in
  intros st;
  match goal with
  | |- context [fst (?m st)] => destruct (m st) as [? ?] eqn:E
  end;
  revert E; unfold f; explore; count_entries.

Lemma contributes_dashboard server clock py_str :
  contributes 15 15 (validate_dashboard_modules server clock py_str).
Proof.
  intros st.
  pose proof (sweep_log server clock py_str modules 0 st) as Hlog.
  apply (f_equal (@List.length _)) in Hlog.
  rewrite length_app, !length_map in Hlog.
  change (List.length modules) with 14%nat in Hlog.
  destruct (validate_dashboard_modules server clock py_str st)
    as [st' r] eqn:Erun.
  revert Erun. unfold validate_dashboard_modules. unfold bind at 1.
  destruct (sweep server clock py_str modules 0 st) as [st1 [e | c]];
    cbn [fst] in Hlog.
  - intros Erun. injection Erun as <- <-. cbn [fst snd]. lia.
  - logs. unfold ret. intros Erun. injection Erun as <- <-.
    cbn [fst snd logged test_results]. rewrite length_app.
    cbn [List.length]. lia.
Qed.

Lemma contributes_watson server clock py_str :
  contributes 1 4 (validate_watson_command_engine server clock py_str).
Proof. contributes_by_paths validate_watson_command_engine. Qed.

Lemma contributes_kaizen server clock py_str :
  contributes 1 3 (validate_kaizen_agent server clock py_str).
Proof. contributes_by_paths validate_kaizen_agent. Qed.

Lemma contributes_infinity server clock py_str :
  contributes 2 5 (validate_infinity_sovereign server clock py_str).
Proof. contributes_by_paths validate_infinity_sovereign. Qed.

Lemma contributes_market server clock py_str :
  contributes 2 4 (validate_market_intelligence server clock py_str).
Proof. contributes_by_paths validate_market_intelligence. Qed.

Lemma contributes_ui server clock :
  contributes 2 2 (validate_ui_readiness server clock).
Proof. contributes_by_paths validate_ui_readiness. Qed.

Lemma run_tests_length clock tests ranges :
  Forall2 (fun t rg => contributes (fst rg) (snd rg) (snd t)) tests ranges ->
  forall acc overall st st' r,
    run_tests clock tests acc overall st = (st', r) ->
    (List.length (test_results st) + list_sum (map fst ranges)
     <= List.length (test_results st')
     /\ List.length (test_results st')
        <= List.length (test_results st) + list_sum (map snd ranges))%nat.
Proof.
  induction 1 as [| [name f] [lo hi] tests ranges Hf _ IH];
    intros acc overall st st' r.
  - cbn [run_tests]. unfold ret, list_sum. intros E. injection E as <- _.
    cbn [map fold_right]. lia.
  - cbn [fst snd] in Hf. specialize (Hf st). cbn zeta in Hf.
    cbn [run_tests]. unfold bind at 1, try_except, bind at 1.
    destruct (f st) as [st1 [e | v]]; cbn [fst snd] in Hf.
    + logs. unfold ret at 1. cbn [fst snd].
      intros E. apply IH in E. revert E.
      cbn [logged test_results]. rewrite length_app.
      unfold list_sum. cbn [List.length map fold_right fst snd]. lia.
    + unfold ret at 1. cbn [fst snd].
      intros E. apply IH in E. revert E.
      unfold list_sum. cbn [map fold_right fst snd]. lia.
Qed.

(** X5.  A run adds between 23 and 33 entries to the log, whatever the
    server answers and whichever categories raise; so the report of a run
    never has [total_tests = 0]. *)
Theorem run_logs_23_to_33_entries :
  forall server clock py_str st,
  exists rep st',
    run_comprehensive_validation server clock py_str st = (st', inr rep)
    /\ Z.of_nat (List.length (test_results st)) + 23 <= total_tests rep
    /\ total_tests rep <= Z.of_nat (List.length (test_results st)) + 33
    /\ 0 < total_tests rep.
Proof.
  intros server clock py_str st.
  destruct (run_validation_eq clock (tests server clock py_str) st)
    as (st1 & r & E & Er).
  pose proof (run_tests_length clock (tests server clock py_str)
                [(15, 15); (1, 4); (1, 3); (2, 5); (2, 4); (2, 2)]%nat)
    as Hlen.
  specialize (Hlen ltac:(
    unfold tests;
    repeat (apply Forall2_cons; [cbn [fst snd] |]);
    [ apply contributes_dashboard | apply contributes_watson
    | apply contributes_kaizen | apply contributes_infinity
    | apply contributes_market | apply contributes_ui
    | apply Forall2_nil ]) [] true (tick st) st1 (inr r) E).
  unfold list_sum in Hlen.
  cbn [fst snd map fold_right tick test_results] in Hlen.
  eexists. eexists. split; [exact Er |].
  cbn [total_tests]. lia.
Qed.

(** Both bounds of the entry count are reached: the lower one when
    nothing listens, the upper one when every check passes but the
    [securityStatus] cannot be printed, so that the sovereign-health
    routine raises after its fourth entry and the orchestration logs the
    exception; a server at which every check passes and prints gives 32. *)
Lemma run_logs_23_entries_when_refused :
  match snd (run_comprehensive_validation refusing_server (fun _ => 0%Q)
               (fun _ => "") (init localhost)) with
  | inr rep => total_tests rep = 23
  | inl _ => False
  end.
Proof. vm_compute. reflexivity. Qed.

Lemma run_logs_32_entries_when_all_ok :
  match snd (run_comprehensive_validation all_ok_server (fun _ => 0%Q)
               (fun _ => "") (init localhost)) with
  | inr rep => total_tests rep = 32
  | inl _ => False
  end.
Proof. vm_compute. reflexivity. Qed.

Lemma run_logs_33_entries_when_security_unprintable :
  match snd (run_comprehensive_validation
               (security_server (PStr surrogate_d800)) (fun _ => 0%Q)
               str_of (init localhost)) with
  | inr rep => total_tests rep = 33
  | inl _ => False
  end.
Proof. vm_compute. reflexivity. Qed.

Lemma count_passed_bounds trs :
  0 <= count_passed trs <= Z.of_nat (List.length trs).
Proof.
  rewrite count_passed_eq.
  pose proof (filter_length_le (fun t => truthy (passed t)) trs). lia.
Qed.

Lemma rate_bounds p t :
  0 <= p <= t -> (0 <= rate p t)%Q /\ (rate p t <= inject_Z 100)%Q.
Proof.
  intros Hp. unfold rate. destruct (Z.gtb_spec t 0) as [Ht | Ht].
  - assert (H0 : (0 <= inject_Z p / inject_Z t)%Q).
    { apply Qle_shift_div_l; [rewrite <- (Zlt_Qlt 0); lia |].
      rewrite Qmult_0_l. rewrite <- (Zle_Qle 0). lia. }
    assert (H1 : (inject_Z p / inject_Z t <= 1)%Q).
    { apply Qle_shift_div_r; [rewrite <- (Zlt_Qlt 0); lia |].
      rewrite Qmult_1_l. rewrite <- Zle_Qle. lia. }
    assert (H100 : inject_Z 100 == 100) by reflexivity.
    split; nra.
  - split; [apply Qle_refl | discriminate].
Qed.

(** X6.  Whatever was logged, the report has
    [0 <= passed_tests <= total_tests] and a [success_rate] between 0 and
    100. *)
Theorem report_rate_bounds :
  forall clock tests st,
  exists rep st',
    run_validation clock tests st = (st', inr rep)
    /\ 0 <= passed_tests rep <= total_tests rep
    /\ (0 <= success_rate rep)%Q
    /\ (success_rate rep <= inject_Z 100)%Q.
Proof.
  intros clock tests st.
  destruct (run_validation_eq clock tests st) as (st1 & r & _ & E).
  eexists. eexists. split; [exact E |].
  cbn [passed_tests total_tests success_rate].
  pose proof (count_passed_bounds (test_results st1)) as Hb.
  split; [exact Hb | apply rate_bounds; exact Hb].
Qed.

(* ===================================================================== *)
(** ** What a successful run guarantees *)

Ltac endpoint_facts :=
  repeat match goal with
    | H : context [success (check_of _ 200)] |- _ =>
        rewrite success_check_of in H
    | H : truthy (py_and _ _) = true |- _ => rewrite truthy_py_and in H
    | H : _ && _ = true |- _ => apply andb_true_iff in H; destruct H
    | H : negb _ = false |- _ => apply negb_false_iff in H
    | H : truthy (PBool _) = true |- _ => cbn [truthy] in H
    end;
  cbn [base_url logged] in *.

(** Follow every path of a routine that ends in a true result: the goal is
    [routine st = (st', inr v) -> truthy v = true -> _]. *)
Ltac truthy_paths f :=
  intros ? ? ?; unfold f; explore_paths; unfold ret;
  intros Hrun Htrue; inversion Hrun; subst; clear Hrun;
  endpoint_facts; repeat split; congruence.

Lemma dashboard_truthy server clock py_str st st' v :
  validate_dashboard_modules server clock py_str st = (st', inr v) ->
  truthy v = true ->
  12 <= Z.of_nat (List.length (succeeding server (base_url st) modules)).
Proof.
  unfold validate_dashboard_modules.
  destruct (sweep_eq server clock py_str modules 0 st) as (st1 & E & _).
  unfold bind at 1. rewrite E. logs. unfold ret.
  change (Z.of_nat (List.length modules)) with 14. rewrite rate_ok_14.
  generalize (Z.of_nat (List.length (succeeding server (base_url st) modules))).
  intros n H Ht. injection H as _ <-. cbn [truthy] in Ht.
  apply Z.leb_le in Ht. lia.
Qed.

Lemma watson_truthy server clock py_str :
  forall st st' v,
    validate_watson_command_engine server clock py_str st = (st', inr v) ->
    truthy v = true ->
    responds_200_json (server (base_url st ++ "/api/watson/state")) = true
    /\ responds_200_json (server (base_url st ++ "/api/watson/visual-state"))
       = true
    /\ responds_200_json (server (base_url st ++ "/api/watson/history"))
       = true.
Proof. truthy_paths validate_watson_command_engine. Qed.

Lemma kaizen_truthy server clock py_str :
  forall st st' v,
    validate_kaizen_agent server clock py_str st = (st', inr v) ->
    truthy v = true ->
    responds_200_json (server (base_url st ++ "/api/kaizen/metrics")) = true.
Proof. truthy_paths validate_kaizen_agent. Qed.

Lemma infinity_truthy server clock py_str :
  forall st st' v,
    validate_infinity_sovereign server clock py_str st = (st', inr v) ->
    truthy v = true ->
    responds_200_json (server (base_url st ++ "/api/infinity/health")) = true.
Proof. truthy_paths validate_infinity_sovereign. Qed.

Lemma market_truthy server clock py_str :
  forall st st' v,
    validate_market_intelligence server clock py_str st = (st', inr v) ->
    truthy v = true ->
    responds_200_json (server (base_url st ++ "/api/market/summary")) = true.
Proof. truthy_paths validate_market_intelligence. Qed.

Lemma ui_truthy server clock :
  forall st st' v,
    validate_ui_readiness server clock st = (st', inr v) ->
    truthy v = true ->
    responds_200_json (server (base_url st ++ "/")) = true.
Proof. truthy_paths validate_ui_readiness. Qed.

Lemma categories_run_all_true clock st tests rs st' :
  categories_run clock st tests rs st' ->
  Forall (fun t => keeps_log clock (snd t)) tests ->
  forallb (fun r => truthy (snd r)) rs = true ->
  Forall (fun t =>
            exists s s' v,
              base_url s = base_url st
              /\ snd t s = (s', inr v)
              /\ truthy v = true)
    tests.
Proof.
  induction 1 as [st | st name f rest st1 v rs st' Ef _ IH
                  | st name f rest st1 e rs st' Ef _ IH];
    intros Hk Hall.
  - constructor.
  - inversion Hk as [| ? ? Hkf Hkrest]; subst. cbn [snd] in Hkf.
    cbn [forallb snd] in Hall. apply andb_true_iff in Hall.
    destruct Hall as [Hv Hall].
    pose proof (Hkf st) as Hg. rewrite Ef in Hg. destruct Hg as (Hb & _).
    cbn [fst] in Hb.
    constructor.
    + exists st, st1, v. repeat split; assumption.
    + eapply Forall_impl; [| exact (IH Hkrest Hall)].
      intros t (s & s' & w & Hs & Ew & Hw). exists s, s', w.
      repeat split; try assumption. congruence.
  - cbn [forallb snd truthy] in Hall. discriminate.
Qed.

(** X7.  A report with [overall_success = True] guarantees that at least
    12 of the 14 module paths succeeded and that the state, visual-state,
    history, metrics, health, summary and root endpoints each answered
    with status 200 and a body that decodes as JSON. *)
Theorem overall_success_guarantees :
  forall server clock py_str st rep st',
    run_comprehensive_validation server clock py_str st = (st', inr rep) ->
    overall_success rep = true ->
    12 <= Z.of_nat (List.length (succeeding server (base_url st) modules))
    /\ Forall (fun p => responds_200_json (server (base_url st ++ p)) = true)
         [ "/api/watson/state";
           "/api/watson/visual-state";
           "/api/watson/history";
           "/api/kaizen/metrics";
           "/api/infinity/health";
           "/api/market/summary";
           "/" ].
Proof.
  intros server clock py_str st rep st' Hrun Hok.
  unfold run_comprehensive_validation in Hrun.
  destruct (run_validation_eq clock (tests server clock py_str) st)
    as (st1 & r & E & Er).
  rewrite Er in Hrun. injection Hrun as _ <-. cbn [overall_success] in Hok.
  destruct (run_tests_categories clock (tests server clock py_str) [] true
              (tick st)) as (rs & st2 & E2 & Hcat).
  { cbn [map fst app tests]. repeat constructor; cbn [In]; intuition discriminate. }
  rewrite E in E2. injection E2 as _ ->. cbn [snd andb] in Hok.
  pose proof (categories_run_all_true clock _ _ _ _ Hcat
                (keeps_log_tests server clock py_str) Hok) as Hall.
  unfold tests in Hall. cbn [tick base_url] in Hall.
  repeat match goal with
         | H : Forall _ (_ :: _) |- _ => inversion H; clear H; subst
         end.
  repeat match goal with
         | H : exists _, _ |- _ => destruct H
         | H : _ /\ _ |- _ => destruct H
         end.
  cbn [snd] in *.
  repeat match goal with
         | Hb : base_url ?s = base_url st, Hf : _ ?s = (_, inr ?v),
           Ht : truthy ?v = true |- _ =>
             first
               [ pose proof (dashboard_truthy _ _ _ _ _ _ Hf Ht) as ?Hd
               | pose proof (watson_truthy _ _ _ _ _ _ Hf Ht) as (? & ? & ?)
               | pose proof (kaizen_truthy _ _ _ _ _ _ Hf Ht)
               | pose proof (infinity_truthy _ _ _ _ _ _ Hf Ht)
               | pose proof (market_truthy _ _ _ _ _ _ Hf Ht)
               | pose proof (ui_truthy _ _ _ _ _ Hf Ht) ];
             clear Hf; rewrite Hb in *; clear Hb
         end.
  split; [assumption |].
  repeat constructor; assumption.
Qed.

Lemma overall_success_guarantees_witness :
  12 <= Z.of_nat (List.length (succeeding all_ok_server localhost modules))
  /\ Forall (fun p => responds_200_json (all_ok_server (localhost ++ p)) = true)
       [ "/api/watson/state";
         "/api/watson/visual-state";
         "/api/watson/history";
         "/api/kaizen/metrics";
         "/api/infinity/health";
         "/api/market/summary";
         "/" ].
Proof.
  eapply (overall_success_guarantees all_ok_server (fun _ => 0%Q)
            (fun _ => "") (init localhost)).
  - vm_compute. reflexivity.
  - reflexivity.
Defined.

(* ===================================================================== *)
(** ** The sovereign-health and market-intelligence routines *)

Lemma py_get_not_dict v key default :
  (forall kvs, v <> PDict kvs) ->
  py_get v key default
  = inl (Exn "AttributeError"
           ("'" ++ type_name v ++ "' object has no attribute 'get'")).
Proof. intros H. destruct v; try reflexivity. exfalso. eapply H. reflexivity. Qed.

Lemma prints_labelled c s t : prints (Cat (Lit (String c s)) t) = printable t.
Proof.
  unfold prints. cbn [printable render append String.eqb andb].
  apply orb_false_r.
Qed.

(** X8.  When the health endpoint succeeds with a non-empty JSON object
    whose [overallHealth] can be compared with 90, the sovereign-health
    routine logs four entries, the outcome of the modules endpoint among
    them, with 0 and ["unknown"] standing in for missing fields.  If the
    [securityStatus] can be printed, the routine returns
    [overallHealth > 90 and securityStatus in ("excellent", "good")], in
    which the outcome of the modules endpoint has no part; if it is a
    string with an unpaired surrogate, the routine raises the
    [UnicodeEncodeError] of the print that follows the fourth entry. *)
Theorem validate_infinity_sovereign_health_data :
  forall server clock py_str st kvs good_health,
    let field key default :=
      match dict_lookup kvs key with Some x => x | None => default end in
    let security := field "securityStatus" (PStr "unknown") in
    let good_security :=
      py_eq_str security "excellent" || py_eq_str security "good" in
    server (base_url st ++ "/api/infinity/health") = json_response (PDict kvs) ->
    kvs <> [] ->
    py_gt_int (field "overallHealth" (PInt 0)) 90 = inr good_health ->
    let r := validate_infinity_sovereign server clock py_str st in
    snd r
    = (if printable_value security
       then inr (PBool (good_health && good_security))
       else inl (detail_error (Cat (Lit "Security: ") (shown py_str security))))
    /\ map (fun t => (test t, passed t)) (test_results (fst r))
       = (map (fun t => (test t, passed t)) (test_results st)
          ++ [ ("Infinity Health Access", PBool true);
               ("Infinity Modules Access",
                PBool (responds_200_json
                         (server (base_url st ++ "/api/infinity/modules")%string)));
               ("System Health Status", PBool good_health);
               ("Security Status", PBool good_security) ])%list.
Proof.
  intros server clock py_str st kvs good_health field security good_security
    Hs Hne Hgt r.
  unfold r, validate_infinity_sovereign.
  rewrite !bind_test_api_endpoint, Hs, check_of_json, success_check_of.
  cbn [success data]. repeat logs.
  rewrite (truthy_dict kvs Hne). cbn [andb py_get].
  rewrite bind_lift_value. fold (field "overallHealth" (PInt 0)).
  rewrite Hgt, bind_lift_value. logs. rewrite bind_lift_value.
  fold (field "securityStatus" (PStr "unknown")). fold security.
  cbn [existsb]. rewrite orb_false_r. fold good_security.
  destruct (printable_value security) eqn:Hp.
  - rewrite bind_log_test by (rewrite prints_labelled; exact Hp).
    unfold ret. cbn [fst snd logged test_results base_url].
    split.
    + unfold py_and. cbn [truthy]. destruct good_health; reflexivity.
    + rewrite !map_app, <- !app_assoc. reflexivity.
  - rewrite bind_log_test_fails by (rewrite prints_labelled; exact Hp).
    cbn [fst snd logged test_results base_url].
    split; [reflexivity |].
    rewrite !map_app, <- !app_assoc. reflexivity.
Qed.

Lemma validate_infinity_sovereign_health_data_witness :
  snd (validate_infinity_sovereign (healthy_server 95) (fun _ => 0%Q)
         (fun _ => "") (init localhost))
  = inr (PBool true)
  /\ snd (validate_infinity_sovereign (healthy_server 90) (fun _ => 0%Q)
            (fun _ => "") (init localhost))
     = inr (PBool false).
Proof.
  split.
  - apply (validate_infinity_sovereign_health_data (healthy_server 95)
             (fun _ => 0%Q) (fun _ => "") (init localhost) _ true eq_refl).
    + discriminate.
    + reflexivity.
  - apply (validate_infinity_sovereign_health_data (healthy_server 90)
             (fun _ => 0%Q) (fun _ => "") (init localhost) _ false eq_refl).
    + discriminate.
    + reflexivity.
Defined.

(** The raising case at an input: a health body whose [securityStatus] is
    one unpaired surrogate. *)
Lemma validate_infinity_sovereign_unprintable_security :
  let r := validate_infinity_sovereign (security_server (PStr surrogate_d800))
             (fun _ => 0%Q) str_of (init localhost) in
  snd r
  = inl (Exn "UnicodeEncodeError"
           "'utf-8' codec can't encode character '\ud800' in position 14: surrogates not allowed")
  /\ map test (test_results (fst r))
     = [ "Infinity Health Access"; "Infinity Modules Access";
         "System Health Status"; "Security Status" ].
Proof. repeat split. Qed.

(** X9.  The sovereign-health routine skips the health and security checks
    when it has no health data.  If the health check fails it logs the two
    access entries and returns [False]; if the health endpoint succeeds
    with an empty body ([null], [{}], [[]], [0], [""], [false]) it logs
    the two access entries and returns the outcome of the modules
    endpoint. *)
Theorem validate_infinity_sovereign_without_data :
  forall server clock py_str st,
    let modules_ok :=
      responds_200_json (server (base_url st ++ "/api/infinity/modules")) in
    let r := validate_infinity_sovereign server clock py_str st in
    let logs health_ok :=
      map (fun t => (test t, passed t)) (test_results (fst r))
      = (map (fun t => (test t, passed t)) (test_results st)
         ++ [ ("Infinity Health Access", PBool health_ok);
              ("Infinity Modules Access", PBool modules_ok) ])%list in
    (responds_200_json (server (base_url st ++ "/api/infinity/health")) = false ->
     snd r = inr (PBool false) /\ logs false)
    /\ (forall body,
          server (base_url st ++ "/api/infinity/health") = json_response body ->
          truthy body = false ->
          snd r = inr (PBool modules_ok) /\ logs true).
Proof.
  intros server clock py_str st modules_ok r logs. unfold logs, r.
  unfold validate_infinity_sovereign.
  rewrite !bind_test_api_endpoint. repeat logs. rewrite !success_check_of.
  fold modules_ok. split.
  - intros ->. cbn [andb]. unfold ret.
    cbn [fst snd logged test_results]. split; [reflexivity |].
    rewrite !map_app, <- !app_assoc. reflexivity.
  - intros body Hs Hf. rewrite Hs, check_of_json. cbn [data].
    rewrite Hf. cbn [responds_200_json json_response resp_status resp_json
                       Z.eqb Pos.eqb andb].
    unfold ret. cbn [fst snd logged test_results]. split.
    + unfold py_and. cbn [truthy]. reflexivity.
    + rewrite !map_app, <- !app_assoc. reflexivity.
Qed.

Lemma validate_infinity_sovereign_without_data_witness :
  snd (validate_infinity_sovereign refusing_server (fun _ => 0%Q)
         (fun _ => "") (init localhost))
  = inr (PBool false)
  /\ snd (validate_infinity_sovereign (fun _ => json_response (PDict []))
            (fun _ => 0%Q) (fun _ => "") (init localhost))
     = inr (PBool true).
Proof.
  split.
  - apply (proj1 (validate_infinity_sovereign_without_data refusing_server
                    (fun _ => 0%Q) (fun _ => "") (init localhost))).
    reflexivity.
  - apply (proj2 (validate_infinity_sovereign_without_data
                    (fun _ => json_response (PDict []))
                    (fun _ => 0%Q) (fun _ => "") (init localhost))
             (PDict []) eq_refl eq_refl).
Defined.

(** X10.  When the summary endpoint succeeds with a non-empty JSON object,
    the market-intelligence routine measures [activeSources] (the empty
    list when missing) before it logs any data sub-check.  If the length
    exists and [totalDataPoints] can be compared with 0, it logs four
    entries and returns [totalDataPoints > 0 and len(activeSources) > 0];
    if [activeSources] has no length, the routine raises that [TypeError]
    with only the two access entries logged. *)
Theorem validate_market_intelligence_summary_data :
  forall server clock py_str st kvs,
    let field key default :=
      match dict_lookup kvs key with Some x => x | None => default end in
    let alerts_ok :=
      responds_200_json (server (base_url st ++ "/api/market/alerts")) in
    let r := validate_market_intelligence server clock py_str st in
    let access :=
      [ ("Market Summary Access", PBool true);
        ("Market Alerts Access", PBool alerts_ok) ] in
    server (base_url st ++ "/api/market/summary") = json_response (PDict kvs) ->
    kvs <> [] ->
    (forall n has_data,
        py_len (field "activeSources" (PList [])) = inr n ->
        py_gt_int (field "totalDataPoints" (PInt 0)) 0 = inr has_data ->
        snd r = inr (PBool (has_data && (n >? 0)))
        /\ map (fun t => (test t, passed t)) (test_results (fst r))
           = (map (fun t => (test t, passed t)) (test_results st)
              ++ access
              ++ [ ("Market Data Collection", PBool has_data);
                   ("Market Data Sources", PBool (n >? 0)) ])%list)
    /\ (forall e,
          py_len (field "activeSources" (PList [])) = inl e ->
          snd r = inl e
          /\ map (fun t => (test t, passed t)) (test_results (fst r))
             = (map (fun t => (test t, passed t)) (test_results st)
                ++ access)%list).
Proof.
  intros server clock py_str st kvs field alerts_ok r access Hs Hne.
  unfold r, access, validate_market_intelligence.
  rewrite !bind_test_api_endpoint, Hs, check_of_json, success_check_of.
  fold alerts_ok. cbn [success data]. repeat logs.
  rewrite (truthy_dict kvs Hne). cbn [andb py_get].
  rewrite !bind_lift_value.
  fold (field "totalDataPoints" (PInt 0)).
  fold (field "activeSources" (PList [])).
  split.
  - intros n has_data Hlen Hgt.
    rewrite Hlen, bind_lift_value, Hgt, bind_lift_value. repeat logs.
    unfold ret. cbn [fst snd logged test_results]. split.
    + unfold py_and. cbn [truthy]. destruct has_data; reflexivity.
    + rewrite !map_app, <- !app_assoc. reflexivity.
  - intros e Hlen. rewrite Hlen, bind_lift_raise.
    cbn [fst snd logged test_results]. split; [reflexivity |].
    rewrite !map_app, <- !app_assoc. reflexivity.
Qed.

Lemma validate_market_intelligence_summary_data_witness :
  snd (validate_market_intelligence (market_server (PList [PStr "feed"]))
         (fun _ => 0%Q) (fun _ => "") (init localhost))
  = inr (PBool true)
  /\ snd (validate_market_intelligence (market_server (PInt 3))
            (fun _ => 0%Q) (fun _ => "") (init localhost))
     = inl (Exn "TypeError" "object of type 'int' has no len()").
Proof.
  split.
  - refine (proj1 (proj1 (validate_market_intelligence_summary_data
                     (market_server (PList [PStr "feed"])) (fun _ => 0%Q)
                     (fun _ => "") (init localhost) _ eq_refl _)
                     1 true eq_refl eq_refl)).
    discriminate.
  - refine (proj1 (proj2 (validate_market_intelligence_summary_data
                     (market_server (PInt 3)) (fun _ => 0%Q)
                     (fun _ => "") (init localhost) _ eq_refl _)
                     _ eq_refl)).
    discriminate.
Defined.

(* ===================================================================== *)
(** ** Bodies that are not objects, and endpoints that fail *)

(** X11.  When the state (or metrics) endpoint succeeds with a body that
    is not a JSON object, the command-engine (or optimization-agent)
    routine raises [AttributeError] at its first field access, naming the
    type of the body, and has logged nothing. *)
Theorem non_object_body_raises_before_logging :
  forall server clock py_str st body,
    (forall kvs, body <> PDict kvs) ->
    let e := Exn "AttributeError"
               ("'" ++ type_name body ++ "' object has no attribute 'get'") in
    (server (base_url st ++ "/api/watson/state") = json_response body ->
     validate_watson_command_engine server clock py_str st = (st, inl e))
    /\ (server (base_url st ++ "/api/kaizen/metrics") = json_response body ->
        validate_kaizen_agent server clock py_str st = (st, inl e)).
Proof.
  intros server clock py_str st body Hnd e. split; intros Hs.
  - unfold validate_watson_command_engine.
    rewrite bind_test_api_endpoint, Hs, check_of_json. cbn [success data negb].
    rewrite py_get_not_dict by exact Hnd. apply bind_lift_raise.
  - unfold validate_kaizen_agent.
    rewrite bind_test_api_endpoint, Hs, check_of_json. cbn [success data negb].
    rewrite py_get_not_dict by exact Hnd. apply bind_lift_raise.
Qed.

Lemma non_object_body_raises_before_logging_witness :
  validate_kaizen_agent (fun _ => json_response (PList [PInt 1]))
    (fun _ => 0%Q) (fun _ => "") (init localhost)
  = (init localhost,
     inl (Exn "AttributeError" "'list' object has no attribute 'get'")).
Proof.
  apply (proj2 (non_object_body_raises_before_logging
                  (fun _ => json_response (PList [PInt 1]))
                  (fun _ => 0%Q) (fun _ => "") (init localhost)
                  (PList [PInt 1]) ltac:(discriminate)) eq_refl).
Defined.

(** X12.  When the health (or summary) endpoint succeeds with a body that
    is not a JSON object and is not empty, the sovereign-health (or
    market-intelligence) routine raises [AttributeError] after it has
    logged its two access entries. *)
Theorem non_object_data_raises_after_access_entries :
  forall server clock py_str st body,
    (forall kvs, body <> PDict kvs) ->
    truthy body = true ->
    let e := Exn "AttributeError"
               ("'" ++ type_name body ++ "' object has no attribute 'get'") in
    (server (base_url st ++ "/api/infinity/health") = json_response body ->
     let r := validate_infinity_sovereign server clock py_str st in
     snd r = inl e
     /\ map (fun t => (test t, passed t)) (test_results (fst r))
        = (map (fun t => (test t, passed t)) (test_results st)
           ++ [ ("Infinity Health Access", PBool true);
                ("Infinity Modules Access",
                 PBool (responds_200_json
                          (server (base_url st ++ "/api/infinity/modules")%string))) ])%list)
    /\ (server (base_url st ++ "/api/market/summary") = json_response body ->
        let r := validate_market_intelligence server clock py_str st in
        snd r = inl e
        /\ map (fun t => (test t, passed t)) (test_results (fst r))
           = (map (fun t => (test t, passed t)) (test_results st)
              ++ [ ("Market Summary Access", PBool true);
                   ("Market Alerts Access",
                    PBool (responds_200_json
                             (server (base_url st ++ "/api/market/alerts")%string))) ])%list).
Proof.
  intros server clock py_str st body Hnd Ht e. split; intros Hs r; unfold r.
  - unfold validate_infinity_sovereign.
    rewrite !bind_test_api_endpoint, Hs, check_of_json, success_check_of.
    cbn [success data]. repeat logs. rewrite Ht. cbn [andb].
    rewrite py_get_not_dict by exact Hnd. rewrite bind_lift_raise.
    cbn [fst snd logged test_results]. split; [reflexivity |].
    rewrite !map_app, <- !app_assoc. reflexivity.
  - unfold validate_market_intelligence.
    rewrite !bind_test_api_endpoint, Hs, check_of_json, success_check_of.
    cbn [success data]. repeat logs. rewrite Ht. cbn [andb].
    rewrite py_get_not_dict by exact Hnd. rewrite bind_lift_raise.
    cbn [fst snd logged test_results]. split; [reflexivity |].
    rewrite !map_app, <- !app_assoc. reflexivity.
Qed.

Lemma non_object_data_raises_after_access_entries_witness :
  snd (validate_infinity_sovereign (fun _ => json_response (PStr "ok"))
         (fun _ => 0%Q) (fun _ => "") (init localhost))
  = inl (Exn "AttributeError" "'str' object has no attribute 'get'").
Proof.
  apply (proj1 (non_object_data_raises_after_access_entries
                  (fun _ => json_response (PStr "ok"))
                  (fun _ => 0%Q) (fun _ => "") (init localhost)
                  (PStr "ok") ltac:(discriminate) eq_refl) eq_refl).
Defined.

(** X13.  When the check of the state (or metrics) endpoint fails, the
    command-engine (or optimization-agent) routine stops at once: it logs
    the single failing entry ["Watson State Access"]
    (["Kaizen Metrics Access"]) and returns [False]; none of its
    sub-checks is logged. *)
Theorem primary_endpoint_failure_stops_routine :
  forall server clock py_str st,
    (responds_200_json (server (base_url st ++ "/api/watson/state")) = false ->
     validate_watson_command_engine server clock py_str st
     = (logged clock st "Watson State Access" (PBool false)
          "Cannot access Watson state",
        inr (PBool false)))
    /\ (responds_200_json (server (base_url st ++ "/api/kaizen/metrics")) = false ->
        validate_kaizen_agent server clock py_str st
        = (logged clock st "Kaizen Metrics Access" (PBool false)
             "Cannot access Kaizen metrics",
           inr (PBool false))).
Proof.
  intros server clock py_str st. split; intros Hf.
  - unfold validate_watson_command_engine.
    rewrite bind_test_api_endpoint, success_check_of, Hf. cbn [negb].
    logs. reflexivity.
  - unfold validate_kaizen_agent.
    rewrite bind_test_api_endpoint, success_check_of, Hf. cbn [negb].
    logs. reflexivity.
Qed.

Lemma primary_endpoint_failure_stops_routine_witness :
  snd (validate_watson_command_engine refusing_server (fun _ => 0%Q)
         (fun _ => "") (init localhost))
  = inr (PBool false).
Proof.
  rewrite (proj1 (primary_endpoint_failure_stops_routine refusing_server
                    (fun _ => 0%Q) (fun _ => "") (init localhost)) eq_refl).
  reflexivity.
Defined.

(* ===================================================================== *)
(** ** The exit status *)

(** X14.  [main] exits with status 0, 1 or 3.  Status 3 means exactly that
    the report could not be written: the validation itself never raises.
    When the report is written, the status is 0 for a report with
    [overall_success = True] and 1 otherwise. *)
Theorem main_exit_status :
  forall server clock py_str write_report,
  exists rep,
    snd (run_comprehensive_validation server clock py_str
           (init "http://localhost:5000"))
    = inr rep
    /\ (main server clock py_str write_report = 3
        <-> exists e, write_report rep = inl e)
    /\ (main server clock py_str write_report = 0
        <-> (exists u, write_report rep = inr u)
            /\ overall_success rep = true)
    /\ (main server clock py_str write_report = 1
        <-> (exists u, write_report rep = inr u)
            /\ overall_success rep = false)
    /\ (main server clock py_str write_report = 0
        \/ main server clock py_str write_report = 1
        \/ main server clock py_str write_report = 3).
Proof.
  intros server clock py_str write_report.
  destruct (run_validation_eq clock (tests server clock py_str)
              (init "http://localhost:5000")) as (st1 & r & _ & E).
  unfold main. unfold run_comprehensive_validation. rewrite E. cbn [snd].
  eexists. split; [reflexivity |].
  cbn [overall_success].
  destruct (write_report _) as [e | u]; destruct (snd r);
    repeat split; intros; try discriminate; try lia; eauto;
    repeat match goal with
      | H : exists _, _ |- _ => destruct H
      | H : _ /\ _ |- _ => destruct H
      end; try discriminate; auto.
Qed.

(* ===================================================================== *)
(** ** Reusing a validator *)

Lemma framed_ret {A : Type} (a : A) : framed (ret a).
Proof. intros old st. reflexivity. Qed.

Lemma framed_lift {A : Type} (r : exn + A) : framed (lift r).
Proof. intros old st. reflexivity. Qed.

Lemma framed_gets {A : Type} (f : state -> A) :
  (forall old st, f (prepend old st) = f st) -> framed (gets f).
Proof. intros Hf old st. unfold gets. cbn [fst snd]. rewrite Hf. reflexivity. Qed.

Lemma framed_log_test clock test_name p d :
  framed (log_test clock test_name p d).
Proof.
  intros old st. rewrite !log_test_eq. cbn [fst snd].
  unfold logged, prepend.
  cbn [base_url test_results fingerprint_lock clock_reads].
  rewrite app_assoc. reflexivity.
Qed.

Lemma framed_test_api_endpoint server endpoint expected :
  framed (test_api_endpoint server endpoint expected).
Proof. intros old st. rewrite !test_api_endpoint_eq. reflexivity. Qed.

Lemma framed_bind {A B : Type} (m : M A) (k : A -> M B) :
  framed m -> (forall a, framed (k a)) -> framed (bind m k).
Proof.
  intros Hm Hk old st. unfold bind. rewrite Hm.
  destruct (m st) as [st1 [e | a]]; cbn [fst snd]; [reflexivity |].
  apply Hk.
Qed.

Lemma framed_try_except {A : Type} (m : M A) (h : exn -> M A) :
  framed m -> (forall e, framed (h e)) -> framed (try_except m h).
Proof.
  intros Hm Hh old st. unfold try_except. rewrite Hm.
  destruct (m st) as [st1 [e | a]]; cbn [fst snd]; [| reflexivity].
  apply Hh.
Qed.

Ltac framed_step :=
  first
    [ apply framed_ret
    | apply framed_lift
    | apply framed_log_test
    | apply framed_test_api_endpoint
    | apply framed_gets; reflexivity
    | apply framed_bind; [| intro]
    | match goal with
      | |- framed (if ?b then _ else _) => destruct b
      end ].

Lemma framed_sweep server clock py_str mods :
  forall passed_count, framed (sweep server clock py_str mods passed_count).
Proof.
  induction mods as [| module rest IH]; intros passed_count; cbn [sweep].
  - apply framed_ret.
  - repeat framed_step; apply IH.
Qed.

Lemma framed_tests server clock py_str :
  Forall (fun t => framed (snd t)) (tests server clock py_str).
Proof.
  unfold tests.
  repeat (apply Forall_cons; [cbn [snd] |]); [ | | | | | | apply Forall_nil].
  - unfold validate_dashboard_modules.
    apply framed_bind; [apply framed_sweep | intro].
    repeat framed_step.
  - unfold validate_watson_command_engine. repeat framed_step.
  - unfold validate_kaizen_agent. repeat framed_step.
  - unfold validate_infinity_sovereign. repeat framed_step.
  - unfold validate_market_intelligence. repeat framed_step.
  - unfold validate_ui_readiness. repeat framed_step.
Qed.

Lemma framed_run_tests clock tests :
  Forall (fun t => framed (snd t)) tests ->
  forall acc overall, framed (run_tests clock tests acc overall).
Proof.
  induction 1 as [| [name f] rest Hf _ IH]; intros acc overall;
    cbn [run_tests].
  - apply framed_ret.
  - cbn [snd] in Hf.
    apply framed_bind; [| intro; apply IH].
    apply framed_try_except.
    + apply framed_bind; [exact Hf | intro; apply framed_ret].
    + intro. repeat framed_step.
Qed.

Lemma count_passed_app l1 l2 :
  count_passed (l1 ++ l2) = count_passed l1 + count_passed l2.
Proof. rewrite !count_passed_eq, filter_app, length_app. lia. Qed.

Lemma prepend_cleared st : prepend (test_results st) (cleared st) = st.
Proof. destruct st. unfold prepend, cleared. cbn. rewrite app_nil_r. reflexivity. Qed.

(** X15.  A run does not reset the log, and does not look at it either.
    Compared with the same run on the validator with its log emptied, the
    run on a validator that already holds entries gives the same
    [overall_success] and per-category results and logs the same new
    entries; its report lists the old entries first, and its
    [total_tests] and [passed_tests] are larger by the number of old
    entries and of old passed entries. *)
Theorem earlier_entries_are_counted :
  forall server clock py_str st,
  exists rep st' fresh st0,
    run_comprehensive_validation server clock py_str st = (st', inr rep)
    /\ run_comprehensive_validation server clock py_str (cleared st)
       = (st0, inr fresh)
    /\ overall_success rep = overall_success fresh
    /\ results rep = results fresh
    /\ test_details rep = (test_results st ++ test_details fresh)%list
    /\ total_tests rep
       = Z.of_nat (List.length (test_results st)) + total_tests fresh
    /\ passed_tests rep
       = count_passed (test_results st) + passed_tests fresh.
Proof.
  intros server clock py_str st.
  destruct (run_validation_eq clock (tests server clock py_str) (cleared st))
    as (s0 & r0 & E0 & Er0).
  destruct (run_validation_eq clock (tests server clock py_str) st)
    as (s1 & r1 & E1 & Er1).
  pose proof (framed_run_tests clock _ (framed_tests server clock py_str)
                [] true (test_results st) (tick (cleared st))) as Hfr.
  assert (Hst : prepend (test_results st) (tick (cleared st)) = tick st).
  { destruct st. unfold prepend, tick, cleared. cbn. rewrite app_nil_r.
    reflexivity. }
  rewrite Hst, E0, E1 in Hfr. cbn [fst snd] in Hfr.
  injection Hfr as Hs1 Hr1. subst s1 r1.
  unfold run_comprehensive_validation.
  do 4 eexists. split; [exact Er1 |]. split; [exact Er0 |].
  cbn [overall_success results test_details total_tests passed_tests
         prepend test_results].
  repeat split.
  - rewrite length_app. lia.
  - apply count_passed_app.
Qed.

(* ===================================================================== *)
(** ** Flags that are not booleans *)

(** X16.  The first flag of the command-engine and of the
    optimization-agent routine is whatever JSON value the server sent.
    For every such value (in the command-engine routine: every such value
    that can be printed, next to a fingerprint that can be printed) the
    routine result is true exactly when the value is true (in Python's
    sense) and the other sub-checks pass; a false value ([0], [""],
    [null], ...) is itself what the routine returns. *)
Theorem raw_flag_decides_result :
  forall server clock py_str st kvs,
    let field key default :=
      match dict_lookup kvs key with Some x => x | None => default end in
    (forall fingerprint_match,
        server (base_url st ++ "/api/watson/state")
        = json_response (PDict kvs) ->
        py_any_contains
          [fingerprint_lock st; "WATSON_FINAL_INFINITY_PATCH_2025_06_05"]
          (field "fingerprintLock" (PStr ""))
        = inr fingerprint_match ->
        printable_value (field "isMemoryAware" (PBool false)) = true ->
        printable_value (field "fingerprintLock" (PStr "")) = true ->
        let memory_aware := field "isMemoryAware" (PBool false) in
        let rest :=
          fingerprint_match
          && responds_200_json
               (server (base_url st ++ "/api/watson/visual-state"))
          && responds_200_json (server (base_url st ++ "/api/watson/history")) in
        exists res,
          snd (validate_watson_command_engine server clock py_str st) = inr res
          /\ truthy res = truthy memory_aware && rest
          /\ (truthy memory_aware = false -> res = memory_aware)
          /\ (truthy memory_aware = true -> res = PBool rest))
    /\ (forall cycles_running good_efficiency,
          server (base_url st ++ "/api/kaizen/metrics")
          = json_response (PDict kvs) ->
          py_gt_int (field "optimizationCycles" (PInt 0)) 0
          = inr cycles_running ->
          py_gt_int (field "currentEfficiency" (PInt 0)) 90
          = inr good_efficiency ->
          let is_active := field "isActive" (PBool false) in
          let rest := cycles_running && good_efficiency in
          exists res,
            snd (validate_kaizen_agent server clock py_str st) = inr res
            /\ truthy res = truthy is_active && rest
            /\ (truthy is_active = false -> res = is_active)
            /\ (truthy is_active = true -> res = PBool rest)).
Proof.
  intros server clock py_str st kvs field. split.
  - intros fm Hs Hf Hpm Hpf memory_aware rest.
    rewrite (validate_watson_command_engine_eq server clock py_str st
               (PDict kvs) memory_aware (field "fingerprintLock" (PStr ""))
               fm Hs eq_refl eq_refl Hf Hpm Hpf).
    eexists. split; [reflexivity |]. split; [| split].
    + rewrite !truthy_py_and. cbn [truthy]. unfold rest.
      rewrite !andb_assoc. reflexivity.
    + intros Hm. unfold py_and at 1. rewrite Hm. reflexivity.
    + intros Hm. unfold py_and at 1. rewrite Hm. unfold py_and, rest.
      cbn [truthy]. destruct fm; [| reflexivity]. cbn [andb].
      destruct (responds_200_json _); reflexivity.
  - intros cr ge Hs Hc He is_active rest.
    rewrite (validate_kaizen_agent_eq server clock py_str st (PDict kvs)
               is_active (field "optimizationCycles" (PInt 0)) cr
               (field "currentEfficiency" (PInt 0)) ge
               Hs eq_refl eq_refl Hc eq_refl He).
    eexists. split; [reflexivity |]. split; [| split].
    + rewrite !truthy_py_and. reflexivity.
    + intros Hm. unfold py_and at 1. rewrite Hm. reflexivity.
    + intros Hm. unfold py_and at 1. rewrite Hm. unfold py_and, rest.
      cbn [truthy]. destruct cr; reflexivity.
Qed.

Lemma raw_flag_decides_result_witness :
  snd (validate_kaizen_agent (kaizen_flag_server (PInt 0)) (fun _ => 0%Q)
         (fun _ => "") (init localhost))
  = inr (PInt 0)
  /\ snd (validate_kaizen_agent (kaizen_flag_server (PStr "yes"))
            (fun _ => 0%Q) (fun _ => "") (init localhost))
     = inr (PBool true)
  /\ snd (validate_watson_command_engine (watson_flag_server (PInt 0))
            (fun _ => 0%Q) (fun _ => "") (init localhost))
     = inr (PInt 0)
  /\ snd (validate_watson_command_engine (watson_flag_server (PStr "yes"))
            (fun _ => 0%Q) (fun _ => "") (init localhost))
     = inr (PBool true).
Proof.
  split; [| split; [| split]].
  3: { destruct (proj1 (raw_flag_decides_result (watson_flag_server (PInt 0))
                          (fun _ => 0%Q) (fun _ => "") (init localhost) _)
                   true eq_refl eq_refl eq_refl eq_refl)
         as (res & E & _ & Hfalse & _).
       rewrite E. f_equal. apply Hfalse. reflexivity. }
  3: { destruct (proj1 (raw_flag_decides_result
                          (watson_flag_server (PStr "yes"))
                          (fun _ => 0%Q) (fun _ => "") (init localhost) _)
                   true eq_refl eq_refl eq_refl eq_refl)
         as (res & E & _ & _ & Htrue).
       rewrite E. f_equal. apply Htrue. reflexivity. }
  - destruct (proj2 (raw_flag_decides_result (kaizen_flag_server (PInt 0))
                       (fun _ => 0%Q) (fun _ => "") (init localhost) _)
                true true eq_refl eq_refl eq_refl)
      as (res & E & _ & Hfalse & _).
    rewrite E. f_equal. apply Hfalse. reflexivity.
  - destruct (proj2 (raw_flag_decides_result (kaizen_flag_server (PStr "yes"))
                       (fun _ => 0%Q) (fun _ => "") (init localhost) _)
                true true eq_refl eq_refl eq_refl)
      as (res & E & _ & _ & Htrue).
    rewrite E. f_equal. apply Htrue. reflexivity.
Defined.

(* ===================================================================== *)
(** ** When a run succeeds *)

Lemma dict_lookup_nonempty kvs key v : dict_lookup kvs key = Some v -> kvs <> [].
Proof. destruct kvs; [discriminate | discriminate]. Qed.

Lemma gtb_of_lt a b : b < a -> (a >? b) = true.
Proof. intros H. apply Z.gtb_lt. exact H. Qed.

Section Passing.

Variable server : string -> exn + response.
Variable clock : nat -> Q.
Variable py_str : pyval -> string.
Variables base lock : string.
Hypothesis Hpass : passing_server server base lock.

Lemma dashboard_passes s :
  base_url s = base -> fingerprint_lock s = lock ->
  exists s', validate_dashboard_modules server clock py_str s
             = (s', inr (PBool true)).
Proof.
  intros Hb _. destruct Hpass as (H12 & _).
  unfold validate_dashboard_modules.
  destruct (sweep_eq server clock py_str modules 0 s) as (s1 & E & _).
  unfold bind at 1. rewrite E. logs. unfold ret.
  change (Z.of_nat (List.length modules)) with 14. rewrite rate_ok_14, Hb.
  rewrite Z.add_0_l. apply Z.leb_le in H12. rewrite H12.
  eexists. reflexivity.
Qed.

Lemma watson_passes s :
  base_url s = base -> fingerprint_lock s = lock ->
  exists s', validate_watson_command_engine server clock py_str s
             = (s', inr (PBool true)).
Proof.
  intros Hb Hl.
  destruct Hpass as (_ & (kvs & fp & Hs & Hm & Hf & Hfp & Hp) & Hv & Hh & _).
  rewrite <- Hb in Hs, Hv, Hh. rewrite <- Hl in Hfp.
  rewrite (validate_watson_command_engine_eq server clock py_str s
             (PDict kvs) (PBool true) (PStr fp) true Hs).
  - rewrite Hv, Hh. eexists. reflexivity.
  - cbn [py_get]. rewrite Hm. reflexivity.
  - cbn [py_get]. rewrite Hf. reflexivity.
  - rewrite py_any_contains_two, Hfp. reflexivity.
  - reflexivity.
  - cbn [printable_value]. rewrite Hp. reflexivity.
Qed.

Lemma kaizen_passes s :
  base_url s = base -> fingerprint_lock s = lock ->
  exists s', validate_kaizen_agent server clock py_str s
             = (s', inr (PBool true)).
Proof.
  intros Hb _.
  destruct Hpass as (_ & _ & _ & _ & (kvs & c & e & Hs & Ha & Hc & Hc0 & He & He90) & _).
  rewrite <- Hb in Hs.
  rewrite (validate_kaizen_agent_eq server clock py_str s (PDict kvs)
             (PBool true) (PInt c) true (PInt e) true Hs).
  - eexists. reflexivity.
  - cbn [py_get]. rewrite Ha. reflexivity.
  - cbn [py_get]. rewrite Hc. reflexivity.
  - cbn [py_gt_int]. rewrite gtb_of_lt by exact Hc0. reflexivity.
  - cbn [py_get]. rewrite He. reflexivity.
  - cbn [py_gt_int]. rewrite gtb_of_lt by exact He90. reflexivity.
Qed.

Lemma infinity_passes s :
  base_url s = base -> fingerprint_lock s = lock ->
  exists s', validate_infinity_sovereign server clock py_str s
             = (s', inr (PBool true)).
Proof.
  intros Hb _.
  destruct Hpass as (_ & _ & _ & _ & _ & (kvs & h & sec & Hs & Hh & Hh90 & Hsec & Hgood) & _).
  rewrite <- Hb in Hs.
  unfold validate_infinity_sovereign.
  rewrite !bind_test_api_endpoint, Hs, check_of_json.
  cbn [success data]. repeat logs.
  rewrite (truthy_dict kvs (dict_lookup_nonempty _ _ _ Hh)).
  cbn [andb py_get]. rewrite Hh, Hsec, !bind_lift_value.
  cbn [py_gt_int]. rewrite gtb_of_lt by exact Hh90.
  rewrite bind_lift_value.
  destruct Hgood as [-> | ->]; repeat logs; unfold ret;
    eexists; reflexivity.
Qed.

Lemma market_passes s :
  base_url s = base -> fingerprint_lock s = lock ->
  exists s', validate_market_intelligence server clock py_str s
             = (s', inr (PBool true)).
Proof.
  intros Hb _.
  destruct Hpass as (_ & _ & _ & _ & _ & _ & (kvs & n & src & srcs & Hs & Hn & Hn0 & Hsrc) & _).
  rewrite <- Hb in Hs.
  unfold validate_market_intelligence.
  rewrite !bind_test_api_endpoint, Hs, check_of_json.
  cbn [success data]. repeat logs.
  rewrite (truthy_dict kvs (dict_lookup_nonempty _ _ _ Hn)).
  cbn [andb py_get]. rewrite Hn, Hsrc, !bind_lift_value.
  cbn [py_len py_gt_int]. rewrite gtb_of_lt by exact Hn0.
  rewrite !bind_lift_value. repeat logs. unfold ret.
  eexists. f_equal.
Qed.

Lemma ui_passes s :
  base_url s = base -> fingerprint_lock s = lock ->
  exists s', validate_ui_readiness server clock s = (s', inr (PBool true)).
Proof.
  intros Hb _.
  destruct Hpass as (_ & _ & _ & _ & _ & _ & _ & Hroot).
  rewrite <- Hb in Hroot.
  unfold validate_ui_readiness.
  rewrite bind_test_api_endpoint, success_check_of, Hroot. repeat logs.
  eexists. reflexivity.
Qed.

End Passing.

Lemma categories_run_all_pass clock st tests rs st' :
  categories_run clock st tests rs st' ->
  Forall (fun t =>
            keeps_log clock (snd t)
            /\ forall s,
                 base_url s = base_url st ->
                 fingerprint_lock s = fingerprint_lock st ->
                 exists s', snd t s = (s', inr (PBool true)))
    tests ->
  rs = map (fun t => (fst t, PBool true)) tests.
Proof.
  induction 1 as [st | st name f rest st1 v rs st' Ef _ IH
                  | st name f rest st1 e rs st' Ef _ IH];
    intros Hall.
  - reflexivity.
  - inversion Hall as [| ? ? [Hk Hp] Hrest]; subst. cbn [snd] in Hk, Hp.
    destruct (Hp st eq_refl eq_refl) as (s' & Es). rewrite Ef in Es.
    injection Es as _ ->. cbn [map fst]. f_equal.
    apply IH. pose proof (Hk st) as Hg. rewrite Ef in Hg.
    destruct Hg as (Hb & Hf & _). cbn [fst] in Hb, Hf.
    eapply Forall_impl; [| exact Hrest].
    intros t [Hkt Hpt]. split; [exact Hkt |].
    intros s Hsb Hsf. apply Hpt; congruence.
  - inversion Hall as [| ? ? [Hk Hp] Hrest]; subst. cbn [snd] in Hp.
    destruct (Hp st eq_refl eq_refl) as (s' & Es). rewrite Ef in Es.
    discriminate.
Qed.



(* ===================================================================== *)
(** ** The shape of an endpoint check *)

(** X18.  The result of an endpoint check has either a status code or an
    error text, never both and never neither.  [success = True] means the
    status code is the expected one and there is no error; data other
    than [None] means the status code is 200 and there is no error. *)
Theorem endpoint_check_shape :
  forall server endpoint expected_status st,
  exists chk,
    test_api_endpoint server endpoint expected_status st = (st, inr chk)
    /\ (error chk = None <-> status_code chk <> None)
    /\ (success chk = true ->
        status_code chk = Some expected_status /\ error chk = None)
    /\ (data chk <> PNone ->
        status_code chk = Some 200 /\ error chk = None).
Proof.
  intros server endpoint expected_status st.
  eexists. split; [apply test_api_endpoint_eq |].
  unfold check_of, failed_check.
  destruct (server (base_url st ++ endpoint)) as [e | resp];
    [| destruct (resp_status resp =? 200) eqn:E200;
       [destruct (resp_json resp) as [e | v] |]];
    cbn [error status_code success data];
    repeat split; intros; try discriminate; try congruence;
    try (apply Z.eqb_eq in E200); try congruence;
    match goal with
    | H : (_ =? _) = true |- _ => apply Z.eqb_eq in H; congruence
    end.
Qed.
